(** * Verification of the European (DCC) verifier of coronacheck mobile-core

    A shallow embedding of [verifier_european.go] and of the parts of the Go
    libraries it calls ([time], [regexp], [go-errors/errors]), followed by the
    properties of the business rules proved on it. *)

From Stdlib Require Import ZArith List String Ascii Bool Lia Arith.
Import ListNotations.

Local Open Scope string_scope.
Local Open Scope Z_scope.

(** ** Machine integers

    Go's [int64] (and [int] on the 64-bit targets) wraps around silently. *)

Definition wrap (bits z : Z) : Z :=
  (z + 2 ^ (bits - 1)) mod 2 ^ bits - 2 ^ (bits - 1).

Definition int64 (z : Z) : Z := wrap 64 z.

Definition MaxInt64 : Z := 2 ^ 63 - 1.
Definition MinInt64 : Z := - 2 ^ 63.

(** ** Package time

    A [Time] is an instant.  Go stores it as a count of seconds since the
    zero time (January 1, year 1, 00:00 UTC) in an [int64] together with
    nanoseconds in [0, 10^9); here the instant is the single count of
    nanoseconds since the zero time.  [Add] is exact as long as the seconds
    stay inside [int64], which they do for every result of [time.Parse]
    (years 0 to 9999) moved by a [Duration] (at most about 292 years). *)

Module GoTime.

Definition Time := Z.
Definition Duration := Z.

Definition Nanosecond : Duration := 1.
Definition Second : Duration := 1000000000.
Definition Hour : Duration := 3600 * Second.

(** Seconds between the zero time and the Unix epoch. *)
Definition unixToInternal : Z := 62135596800.

(** [time.Unix(sec, nsec)]: the seconds are moved to the internal epoch
    with an [int64] addition. *)
Definition Unix (sec nsec : Z) : Time :=
  let '(sec, nsec) :=
    if (nsec <? 0) || (Second <=? nsec) then
      let n := Z.quot nsec Second in
      let sec := int64 (sec + n) in
      let nsec := nsec - n * Second in
      if nsec <? 0 then (int64 (sec - 1), nsec + Second) else (sec, nsec)
    else (sec, nsec) in
  int64 (sec + unixToInternal) * Second + nsec.

Definition Before (t u : Time) : bool := t <? u.
Definition After (t u : Time) : bool := u <? t.
Definition Add (t : Time) (d : Duration) : Time := t + d.

(** [t.Truncate(d)]: round down to a multiple of [d] since the zero time. *)
Definition Truncate (t : Time) (d : Duration) : Time :=
  if d <=? 0 then t else Add t (- (t mod d)).

(** [t.UTC()] changes the location, not the instant. *)
Definition UTC (t : Time) : Time := t.

(** [time.Duration(n) * time.Hour], an [int64] product. *)
Definition Hours (n : Z) : Duration := int64 (n * Hour).

End GoTime.

(** ** Package go-errors/errors

    An error is kept as the code builds it: a format with its arguments, or
    an error wrapped with a prefix ([err.Error()] of the latter is the prefix,
    a colon and the message of the wrapped error). *)

Inductive fmtArg : Type :=
| ArgInt (z : Z)
| ArgString (s : string)
(** the text [d.String()] of a [time.Duration], kept symbolic *)
| ArgDurationString (d : GoTime.Duration).

Inductive error : Type :=
| Errorf (format : string) (args : list fmtArg)
| WrapPrefix (err : error) (prefix : string).

(** ** Package regexp

    The fragment of the syntax used by [dateOfBirthRegex], with Go's
    leftmost-first (backtracking) matching and submatch extraction. *)

Module Regexp.

Inductive syntax : Type :=
| OpNoMatch
| OpEmptyMatch
| OpLiteral (c : ascii)
| OpCharClass (ranges : list (ascii * ascii))
| OpBeginText
| OpEndText
| OpCapture (i : nat) (r : syntax)
| OpQuest (r : syntax)
| OpConcat (r1 r2 : syntax)
| OpAlternate (r1 r2 : syntax).

Definition inRange (c : ascii) (r : ascii * ascii) : bool :=
  ((nat_of_ascii (fst r) <=? nat_of_ascii c)
   && (nat_of_ascii c <=? nat_of_ascii (snd r)))%nat.

Definition inClass (ranges : list (ascii * ascii)) (c : ascii) : bool :=
  existsb (inRange c) ranges.

(** Capture slots: slot 0 is the whole match, slot [i] the i-th group;
    each holds the start and end offsets of the submatch. *)
Definition slots := list (option (nat * nat)).

Fixpoint setSlot (i : nat) (v : nat * nat) (c : slots) : slots :=
  match i, c with
  | _, [] => []
  | O, _ :: c' => Some v :: c'
  | S i', x :: c' => x :: setSlot i' v c'
  end.

(** [run r pos rest c k]: match [r] at offset [pos], where [rest] is the
    text from [pos] on, then continue with [k]; alternatives are tried in
    priority order and the first overall success wins. *)
Fixpoint run (r : syntax) (pos : nat) (rest : string) (c : slots)
    (k : nat -> string -> slots -> option slots) : option slots :=
  match r with
  | OpNoMatch => None
  | OpEmptyMatch => k pos rest c
  | OpLiteral a =>
      match rest with
      | String b rest' => if Ascii.eqb b a then k (S pos) rest' c else None
      | EmptyString => None
      end
  | OpCharClass ranges =>
      match rest with
      | String b rest' => if inClass ranges b then k (S pos) rest' c else None
      | EmptyString => None
      end
  | OpBeginText => if (pos =? 0)%nat then k pos rest c else None
  | OpEndText =>
      match rest with
      | EmptyString => k pos rest c
      | String _ _ => None
      end
  | OpCapture i r' =>
      run r' pos rest c (fun pos' rest' c' => k pos' rest' (setSlot i (pos, pos') c'))
  | OpQuest r' =>
      match run r' pos rest c k with
      | Some m => Some m
      | None => k pos rest c
      end
  | OpConcat r1 r2 =>
      run r1 pos rest c (fun pos' rest' c' => run r2 pos' rest' c' k)
  | OpAlternate r1 r2 =>
      match run r1 pos rest c k with
      | Some m => Some m
      | None => run r2 pos rest c k
      end
  end.

Fixpoint NumSubexp (r : syntax) : nat :=
  match r with
  | OpCapture _ r' => S (NumSubexp r')
  | OpQuest r' => NumSubexp r'
  | OpConcat r1 r2 | OpAlternate r1 r2 => (NumSubexp r1 + NumSubexp r2)%nat
  | _ => O
  end.

(** The leftmost match: start offsets are tried from the left. *)
Fixpoint findFrom (r : syntax) (n : nat) (pos : nat) (rest : string) : option slots :=
  match run r pos rest (repeat None (S n))
          (fun pos' _ c => Some (setSlot 0 (pos, pos') c)) with
  | Some m => Some m
  | None =>
      match rest with
      | String _ rest' => findFrom r n (S pos) rest'
      | EmptyString => None
      end
  end.

Definition submatch (s : string) (slot : option (nat * nat)) : string :=
  match slot with
  | Some (a, b) => substring a (b - a) s
  | None => ""
  end.

(** [re.FindStringSubmatch(s)]: nil (the empty list) when there is no
    match, else the whole match followed by the text of each group, the
    empty string for a group that took no part in the match. *)
Definition FindStringSubmatch (r : syntax) (s : string) : list string :=
  match findFrom r (NumSubexp r) 0 s with
  | Some m => map (submatch s) m
  | None => []
  end.

(** [\d] *)
Definition digit : syntax := OpCharClass [("0"%char, "9"%char)].

(** The parser of patterns, for the operators [^], [$], [\d], [?], [|], the
    groups [(...)] and [(?:...)] and literal characters.  Capturing groups
    are numbered by their opening parenthesis, from 1.  Each function returns
    the syntax, the rest of the pattern and the number of groups so far. *)
Fixpoint parseAlternation (fuel : nat) (p : string) (ncap : nat)
    : option (syntax * string * nat) :=
  match fuel with
  | O => None
  | S fuel' =>
      match parseConcat fuel' p ncap with
      | Some (r1, String "|" rest, n1) =>
          match parseAlternation fuel' rest n1 with
          | Some (r2, rest', n2) => Some (OpAlternate r1 r2, rest', n2)
          | None => None
          end
      | other => other
      end
  end
with parseConcat (fuel : nat) (p : string) (ncap : nat)
    : option (syntax * string * nat) :=
  match fuel with
  | O => None
  | S fuel' =>
      match p with
      | EmptyString => Some (OpEmptyMatch, p, ncap)
      | String ")" _ => Some (OpEmptyMatch, p, ncap)
      | String "|" _ => Some (OpEmptyMatch, p, ncap)
      | _ =>
          match parseRepeat fuel' p ncap with
          | Some (r1, rest, n1) =>
              match parseConcat fuel' rest n1 with
              | Some (OpEmptyMatch, rest', n2) => Some (r1, rest', n2)
              | Some (r2, rest', n2) => Some (OpConcat r1 r2, rest', n2)
              | None => None
              end
          | None => None
          end
      end
  end
with parseRepeat (fuel : nat) (p : string) (ncap : nat)
    : option (syntax * string * nat) :=
  match fuel with
  | O => None
  | S fuel' =>
      match parseAtom fuel' p ncap with
      | Some (r, String "?" rest, n) => Some (OpQuest r, rest, n)
      | other => other
      end
  end
with parseAtom (fuel : nat) (p : string) (ncap : nat)
    : option (syntax * string * nat) :=
  match fuel with
  | O => None
  | S fuel' =>
      match p with
      | EmptyString => None
      | String "^" rest => Some (OpBeginText, rest, ncap)
      | String "$" rest => Some (OpEndText, rest, ncap)
      | String "\" (String "d" rest) => Some (digit, rest, ncap)
      | String "(" (String "?" (String ":" rest)) =>
          match parseAlternation fuel' rest ncap with
          | Some (r, String ")" rest', n) => Some (r, rest', n)
          | _ => None
          end
      | String "(" rest =>
          match parseAlternation fuel' rest (S ncap) with
          | Some (r, String ")" rest', n) => Some (OpCapture (S ncap) r, rest', n)
          | _ => None
          end
      | String "?" _ => None
      | String "\" _ => None
      | String c rest => Some (OpLiteral c, rest, ncap)
      end
  end.

(** [regexp.MustCompile]; it panics on a pattern that does not parse, which
    is rendered by the syntax that matches nothing. *)
Definition MustCompile (pattern : string) : syntax :=
  match parseAlternation (4 * String.length pattern + 4) pattern 0 with
  | Some (r, EmptyString, _) => r
  | _ => OpNoMatch
  end.

End Regexp.

(** ** Package hcert/common: the decoded certificate

    Only the fields the verifier reads.  The pointers of the Go structs
    ([*DCC], [*DCCName], the statements) are taken to be non-nil, as the
    external verifier delivers them. *)

Record DCCName : Type := {
  StandardizedFamilyName : string;
  StandardizedGivenName : string
}.

Record DCCVaccination : Type := {
  vacc_DiseaseTargeted : string;
  MedicinalProduct : string;
  DoseNumber : Z;
  TotalSeriesOfDoses : Z;
  DateOfVaccination : string
}.

Record DCCTest : Type := {
  test_DiseaseTargeted : string;
  TypeOfTest : string;
  TestResult : string;
  DateTimeOfCollection : string
}.

Record DCCRecovery : Type := {
  rec_DiseaseTargeted : string;
  DateOfFirstPositiveTest : string;
  CertificateValidFrom : string;
  CertificateValidUntil : string
}.

Record DCC : Type := {
  DateOfBirth : string;
  Name : DCCName;
  Vaccinations : list DCCVaccination;
  Tests : list DCCTest;
  Recoveries : list DCCRecovery
}.

Record HealthCertificate : Type := {
  Issuer : string;
  IssuedAt : Z;
  ExpirationTime : Z;
  hcert_DCC : DCC
}.

(** ** Types of the verifier declared outside [verifier_european.go] *)

(** Modelled from the spec: the struct [europeanVerificationRules] (allowed
    vaccine products and test types, vaccination validity delay in days, test
    validity in hours, recovery valid-from and valid-until offsets in days);
    the numbers are Go [int]s. *)
Record europeanVerificationRules : Type := {
  VaccineAllowedProducts : list string;
  TestAllowedTypes : list string;
  VaccinationValidityDelayDays : Z;
  TestValidityHours : Z;
  RecoveryValidFromDays : Z;
  RecoveryValidUntilDays : Z
}.

(** Modelled from the spec: the struct [VerificationDetails]; the issuer
    country code is left at Go's zero value by the European path. *)
Record VerificationDetails : Type := {
  CredentialVersion : string;
  IsSpecimen : string;
  IssuerCountryCode : string;
  FirstNameInitial : string;
  LastNameInitial : string;
  BirthDay : string;
  BirthMonth : string
}.

(** ** verifier_european.go *)

Definition HCERT_SPECIMEN_EXPIRATION_TIME : Z := 42.
Definition DISEASE_TARGETED_COVID_19 : string := "840539006".
Definition TEST_RESULT_NOT_DETECTED : string := "260415000".
Definition NL_COUNTRY_CODE : string := "NL".
Definition YYYYMMDD_FORMAT : string := "2006-01-02".
Definition DOB_EMPTY_VALUE : string := "XX".

(** [time.RFC3339] *)
Definition RFC3339 : string := "2006-01-02T15:04:05Z07:00".

(** Go's [int] on the 64-bit targets. *)
Definition int (z : Z) : Z := wrap 64 z.

(** [time.Duration(days*24) * time.Hour]: an [int] product, then an [int64]
    product. *)
Definition daysDuration (days : Z) : GoTime.Duration := GoTime.Hours (int (days * 24)).

(** Sequencing of checks: the first error returns. *)
Definition andThen (r k : option error) : option error :=
  match r with
  | Some err => Some err
  | None => k
  end.

Definition wrapping (prefix : string) (r : option error) : option error :=
  match r with
  | Some err => Some (WrapPrefix err prefix)
  | None => None
  end.

Notation "r ';;;' k" := (andThen r k) (at level 60, right associativity).

(** [for _, x := range l { err = f(x); if err != nil { return wrap(err) } }] *)
Fixpoint forRange {A : Type} (f : A -> option error) (prefix : string)
    (l : list A) : option error :=
  match l with
  | [] => None
  | x :: l' => wrapping prefix (f x) ;;; forRange f prefix l'
  end.

Fixpoint containsString (list : list string) (target : string) : bool :=
  match list with
  | [] => false
  | elem :: list' => if String.eqb elem target then true else containsString list' target
  end.

Definition dateOfBirthRegex : Regexp.syntax :=
  Eval vm_compute in
    Regexp.MustCompile "^(?:((?:19|20)\d\d)(?:-(\d\d)(?:-(\d\d))?)?)?$".

Definition regexError : error := Errorf "Did not conform to regex" [].

Definition parseDateOfBirth (value : string) : string * string * string * option error :=
  let res := Regexp.FindStringSubmatch dateOfBirthRegex value in
  if negb (List.length res =? 4)%nat then
    ("", "", "", Some regexError)
  else
    (nth 1 res "", nth 2 res "", nth 3 res "", None).

Definition validateDateOfBirth (dob : string) : option error :=
  let '(_, _, _, err) := parseDateOfBirth dob in
  wrapping "Invalid date of birth" err.

Definition validateName (name : DCCName) : option error :=
  if String.eqb (StandardizedFamilyName name) "" && String.eqb (StandardizedGivenName name) "" then
    Some (Errorf "Either the standardized family name or given name must be present" [])
  else None.

Definition validateStatementAmount (dcc : DCC) : option error :=
  let vaccAmount := List.length (Vaccinations dcc) in
  let testAmount := List.length (Tests dcc) in
  let recAmount := List.length (Recoveries dcc) in
  let totalAmount := (vaccAmount + testAmount + recAmount)%nat in
  if (totalAmount =? 0)%nat then
    Some (Errorf "Contains no vaccination, test or recovery statements" [])
  else if (1 <? totalAmount)%nat then
    Some (Errorf "Contains too many statements (%d vaccinations, %d tests and %d recoveries)"
            [ArgInt (Z.of_nat vaccAmount); ArgInt (Z.of_nat testAmount);
             ArgInt (Z.of_nat recAmount)])
  else None.

Definition validateHcert (hcert : HealthCertificate) (now : GoTime.Time) : bool * option error :=
  if ExpirationTime hcert =? HCERT_SPECIMEN_EXPIRATION_TIME then (true, None)
  else
    let issuedAt := GoTime.Unix (IssuedAt hcert) 0 in
    let expirationTime := GoTime.Unix (ExpirationTime hcert) 0 in
    if GoTime.Before expirationTime issuedAt then
      (false, Some (Errorf "Cannot be issued after it expires" []))
    else if GoTime.Before now issuedAt then
      (false, Some (Errorf "Is issued before the current time" []))
    else if GoTime.Before expirationTime now then
      (false, Some (Errorf "Is not valid anymore; was valid until %d"
                      [ArgInt (ExpirationTime hcert)]))
    else (false, None).

Section Verifier.

(** [time.Parse(layout, value)], with the error reduced to its presence. *)
Variable Parse : string -> string -> option GoTime.Time.

(** [europeanVerifier.VerifyQREncoded]: the external signature check and
    decoding of the scanned payload. *)
Variable VerifyQREncoded : list Byte.byte -> HealthCertificate + error.

Definition validateVaccination (vacc : DCCVaccination) (rules : europeanVerificationRules)
    (now : GoTime.Time) : option error :=
  if negb (String.eqb (vacc_DiseaseTargeted vacc) DISEASE_TARGETED_COVID_19) then
    Some (Errorf "Disease targeted should be COVID-19" [])
  else if negb (containsString (VaccineAllowedProducts rules) (MedicinalProduct vacc)) then
    Some (Errorf "Medicinal product is not accepted" [])
  else if DoseNumber vacc <? TotalSeriesOfDoses vacc then
    Some (Errorf "Dose number is smaller than the specified total amount of doses" [])
  else
    match Parse YYYYMMDD_FORMAT (DateOfVaccination vacc) with
    | None => Some (Errorf "Date of vaccination could not be parsed" [])
    | Some dov =>
        let nowDate := GoTime.UTC (GoTime.Truncate now (24 * GoTime.Hour)) in
        let vaccinationValidFrom :=
          GoTime.Add dov (daysDuration (VaccinationValidityDelayDays rules)) in
        if GoTime.Before nowDate vaccinationValidFrom then
          Some (Errorf "Date of vaccination is before the delayed validity date" [])
        else None
    end.

Definition validateTest (test : DCCTest) (rules : europeanVerificationRules)
    (now : GoTime.Time) : option error :=
  if negb (String.eqb (test_DiseaseTargeted test) DISEASE_TARGETED_COVID_19) then
    Some (Errorf "Disease targeted should be COVID-19" [])
  else if negb (containsString (TestAllowedTypes rules) (TypeOfTest test)) then
    Some (Errorf "Type is not allowed" [])
  else if negb (String.eqb (TestResult test) TEST_RESULT_NOT_DETECTED) then
    Some (Errorf "Result should be negative (not detected)" [])
  else
    match Parse RFC3339 (DateTimeOfCollection test) with
    | None => Some (Errorf "Time of collection could not be parsed" [])
    | Some doc =>
        let testValidityHours := TestValidityHours rules in
        let testValidityDuration := GoTime.Hours testValidityHours in
        let testExpirationTime := GoTime.Add doc testValidityDuration in
        if GoTime.Before testExpirationTime now then
          Some (Errorf "Time of collection is more than %s ago"
                  [ArgDurationString testValidityDuration])
        else if GoTime.Before now doc then
          Some (Errorf "Time of collection is in the future" [])
        else None
    end.

Definition validateRecovery (rec : DCCRecovery) (rules : europeanVerificationRules)
    (now : GoTime.Time) : option error :=
  if negb (String.eqb (rec_DiseaseTargeted rec) DISEASE_TARGETED_COVID_19) then
    Some (Errorf "Disease targeted should be COVID-19" [])
  else
    match Parse YYYYMMDD_FORMAT (DateOfFirstPositiveTest rec) with
    | None => Some (Errorf "Date of first positive test could not be parsed" [])
    | Some testDate =>
        let validFromDays := RecoveryValidFromDays rules in
        let validUntilDays := RecoveryValidUntilDays rules in
        let validFrom := GoTime.Add testDate (daysDuration validFromDays) in
        let validUntil := GoTime.Add testDate (daysDuration validUntilDays) in
        let validFrom :=
          match Parse YYYYMMDD_FORMAT (CertificateValidFrom rec) with
          | Some specifiedValidFrom =>
              if GoTime.After specifiedValidFrom validFrom then specifiedValidFrom
              else validFrom
          | None => validFrom
          end in
        let validUntil :=
          match Parse YYYYMMDD_FORMAT (CertificateValidUntil rec) with
          | Some specifiedValidUntil =>
              if GoTime.Before specifiedValidUntil validUntil then specifiedValidUntil
              else validUntil
          | None => validUntil
          end in
        if GoTime.Before validUntil validFrom then
          Some (Errorf "Valid until cannot be before valid from" [])
        else if GoTime.Before now validFrom then
          Some (Errorf "Recovery is not yet valid" [])
        else if GoTime.Before validUntil now then
          Some (Errorf "Recovery is not valid anymore" [])
        else None
    end.

Definition validateDCC (dcc : DCC) (rules : europeanVerificationRules)
    (now : GoTime.Time) : option error :=
  wrapping "Invalid date of birth" (validateDateOfBirth (DateOfBirth dcc)) ;;;
  wrapping "Invalid name" (validateName (Name dcc)) ;;;
  wrapping "Invalid statement amount" (validateStatementAmount dcc) ;;;
  forRange (fun vacc => validateVaccination vacc rules now)
    "Invalid vaccination statement" (Vaccinations dcc) ;;;
  forRange (fun test => validateTest test rules now)
    "Invalid test statement" (Tests dcc) ;;;
  forRange (fun rec => validateRecovery rec rules now)
    "Invalid recovery statement" (Recoveries dcc).

Definition buildVerificationDetails (hcert : HealthCertificate) (isSpecimen : bool)
    : option VerificationDetails * option error :=
  let isSpecimenStr := if isSpecimen then "1" else "0" in
  let '(_, birthMonth, birthDay, err) := parseDateOfBirth (DateOfBirth (hcert_DCC hcert)) in
  match err with
  | Some err => (None, Some (WrapPrefix err "Could not parse date of birth"))
  | None =>
      let birthMonth := if String.eqb birthMonth "" then DOB_EMPTY_VALUE else birthMonth in
      let birthDay := if String.eqb birthDay "" then DOB_EMPTY_VALUE else birthDay in
      let given := StandardizedGivenName (Name (hcert_DCC hcert)) in
      let family := StandardizedFamilyName (Name (hcert_DCC hcert)) in
      let firstNameInitial :=
        if (0 <? String.length given)%nat then substring 0 1 given else "" in
      let familyNameInitial :=
        if (0 <? String.length family)%nat then substring 0 1 family else "" in
      (Some {| CredentialVersion := "1";
               IsSpecimen := isSpecimenStr;
               IssuerCountryCode := "";
               BirthMonth := birthMonth;
               BirthDay := birthDay;
               FirstNameInitial := firstNameInitial;
               LastNameInitial := familyNameInitial |}, None)
  end.

(** Returns [(details, isNLDCC, err)]. *)
Definition verifyEuropean (proofQREncoded : list Byte.byte)
    (rules : europeanVerificationRules) (now : GoTime.Time)
    : option VerificationDetails * bool * option error :=
  match VerifyQREncoded proofQREncoded with
  | inr err => (None, false, Some err)
  | inl hcert =>
      if String.eqb (Issuer hcert) NL_COUNTRY_CODE then (None, true, None)
      else
        match validateHcert hcert now with
        | (_, Some err) =>
            (None, false, Some (WrapPrefix err "Could not validate health certificate"))
        | (isSpecimen, None) =>
            match validateDCC (hcert_DCC hcert) rules now with
            | Some err => (None, false, Some (WrapPrefix err "Could not validate DCC"))
            | None =>
                match buildVerificationDetails hcert isSpecimen with
                | (_, Some err) => (None, false, Some err)
                | (result, None) => (result, false, None)
                end
            end
        end
  end.

End Verifier.

(** ** The shapes of a date of birth

    Stated on the text itself, independently of the regular expression. *)

Definition isDigit (c : ascii) : bool :=
  ((48 <=? nat_of_ascii c) && (nat_of_ascii c <=? 57))%nat.

Definition twoDigits (s : string) : bool :=
  match s with
  | String a (String b EmptyString) => isDigit a && isDigit b
  | _ => false
  end.

(** Any four digits. *)
Definition fourDigitYear (s : string) : bool :=
  match s with
  | String a (String b (String c (String d EmptyString))) =>
      isDigit a && isDigit b && isDigit c && isDigit d
  | _ => false
  end.

(** Four digits of which the first two are 19 or 20. *)
Definition centuryYear (s : string) : bool :=
  match s with
  | String a (String b (String c (String d EmptyString))) =>
      ((Ascii.eqb a "1" && Ascii.eqb b "9") || (Ascii.eqb a "2" && Ascii.eqb b "0"))
      && isDigit c && isDigit d
  | _ => false
  end.

(** The granularities of the date of birth, for a given notion of year:
    empty, year, year and month, full date. *)
Definition dobShape (yearOk : string -> bool) (s : string) : Prop :=
  s = ""
  \/ yearOk s = true
  \/ (exists y m, s = y ++ "-" ++ m /\ yearOk y = true /\ twoDigits m = true)
  \/ (exists y m d, s = y ++ "-" ++ m ++ "-" ++ d
        /\ yearOk y = true /\ twoDigits m = true /\ twoDigits d = true).

Definition dashAt (n : nat) (s : string) : bool :=
  match get n s with
  | Some c => Ascii.eqb c "-"
  | None => false
  end.

(** The year, month and day of a text of one of the shapes, cut by position. *)
Definition dobParts (yearOk : string -> bool) (s : string) : option (string * string * string) :=
  let y := substring 0 4 s in
  let m := substring 5 2 s in
  let d := substring 8 2 s in
  match String.length s with
  | 0 => Some ("", "", "")
  | 4 => if yearOk y then Some (y, "", "") else None
  | 7 => if yearOk y && dashAt 4 s && twoDigits m then Some (y, m, "") else None
  | 10 =>
      if yearOk y && dashAt 4 s && twoDigits m && dashAt 7 s && twoDigits d
      then Some (y, m, d) else None
  | _ => None
  end%nat.

(** The first character of a text, the empty text when there is none. *)
Definition firstChar (s : string) : string :=
  match s with
  | EmptyString => ""
  | String c _ => String c ""
  end.

(** ** Vocabulary of the properties *)

(** The two errors of the statement amount. *)
Definition noStatements : error :=
  Errorf "Contains no vaccination, test or recovery statements" [].

Definition tooManyStatements (vaccAmount testAmount recAmount : nat) : error :=
  Errorf "Contains too many statements (%d vaccinations, %d tests and %d recoveries)"
    [ArgInt (Z.of_nat vaccAmount); ArgInt (Z.of_nat testAmount); ArgInt (Z.of_nat recAmount)].

Definition statementAmounts (dcc : DCC) : nat * nat * nat :=
  (List.length (Vaccinations dcc), List.length (Tests dcc), List.length (Recoveries dcc)).

Definition totalAmount (dcc : DCC) : nat :=
  (List.length (Vaccinations dcc) + List.length (Tests dcc) + List.length (Recoveries dcc))%nat.

(** The seconds that [time.Unix] moves to the internal epoch without
    leaving [int64]. *)
Definition unixInRange (sec : Z) : Prop :=
  MinInt64 <= sec /\ sec + GoTime.unixToInternal <= MaxInt64.

(** ** A calendar instance of [time.Parse]

    The two layouts of the verifier on their plain forms, [YYYY-MM-DD] and
    [YYYY-MM-DDTHH:MM:SSZ], for running the rules on concrete certificates. *)

Module Civil.

Definition digitValue (c : ascii) : option Z :=
  if isDigit c then Some (Z.of_nat (nat_of_ascii c) - 48) else None.

Fixpoint decimal (s : string) (acc : Z) : option Z :=
  match s with
  | EmptyString => Some acc
  | String c s' =>
      match digitValue c with
      | Some v => decimal s' (10 * acc + v)
      | None => None
      end
  end.

Definition number (s : string) : option Z :=
  match s with
  | EmptyString => None
  | _ => decimal s 0
  end.

Definition isLeap (y : Z) : bool :=
  (y mod 4 =? 0) && (negb (y mod 100 =? 0) || (y mod 400 =? 0)).

Definition daysIn (y m : Z) : Z :=
  if m =? 2 then (if isLeap y then 29 else 28)
  else if (m =? 4) || (m =? 6) || (m =? 9) || (m =? 11) then 30
  else 31.

Fixpoint daysBefore (y : Z) (m : nat) : Z :=
  match m with
  | O => 0
  | S m' => daysBefore y m' + daysIn y (Z.of_nat m)
  end.

(** Days from January 1 of year 1 to the given day. *)
Definition daysSinceZero (y m d : Z) : Z :=
  365 * (y - 1) + (y - 1) / 4 - (y - 1) / 100 + (y - 1) / 400
  + daysBefore y (Z.to_nat (m - 1)) + (d - 1).

Definition civil (y m d hh mm ss : Z) : option GoTime.Time :=
  if (1 <=? m) && (m <=? 12) && (1 <=? d) && (d <=? daysIn y m)
     && (hh <? 24) && (mm <? 60) && (ss <? 60)
  then Some ((daysSinceZero y m d * 86400 + hh * 3600 + mm * 60 + ss) * GoTime.Second)
  else None.

Definition date (s : string) : option GoTime.Time :=
  if (String.length s =? 10)%nat && dashAt 4 s && dashAt 7 s then
    match number (substring 0 4 s), number (substring 5 2 s), number (substring 8 2 s) with
    | Some y, Some m, Some d => civil y m d 0 0 0
    | _, _, _ => None
    end
  else None.

Definition dateTime (s : string) : option GoTime.Time :=
  if (String.length s =? 20)%nat && String.eqb (substring 10 1 s) "T"
     && String.eqb (substring 13 1 s) ":" && String.eqb (substring 16 1 s) ":"
     && String.eqb (substring 19 1 s) "Z" && dashAt 4 s && dashAt 7 s then
    match number (substring 0 4 s), number (substring 5 2 s), number (substring 8 2 s),
          number (substring 11 2 s), number (substring 14 2 s), number (substring 17 2 s) with
    | Some y, Some m, Some d, Some hh, Some mm, Some ss => civil y m d hh mm ss
    | _, _, _, _, _, _ => None
    end
  else None.

Definition Parse (layout value : string) : option GoTime.Time :=
  if String.eqb layout YYYYMMDD_FORMAT then date value
  else if String.eqb layout RFC3339 then dateTime value
  else None.

End Civil.

(** ** Sample certificates and policy *)

Definition sampleRules : europeanVerificationRules :=
  {| VaccineAllowedProducts := ["EU/1/20/1528"; "EU/1/20/1507"; "EU/1/21/1529"; "EU/1/20/1525"];
     TestAllowedTypes := ["LP6464-4"; "LP217198-3"];
     VaccinationValidityDelayDays := 14;
     TestValidityHours := 48;
     RecoveryValidFromDays := 11;
     RecoveryValidUntilDays := 180 |}.

Definition sampleName : DCCName :=
  {| StandardizedFamilyName := "JANSEN"; StandardizedGivenName := "ANNA" |}.

Definition sampleTest : DCCTest :=
  {| test_DiseaseTargeted := "840539006";
     TypeOfTest := "LP6464-4";
     TestResult := "260415000";
     DateTimeOfCollection := "2021-06-01T10:00:00Z" |}.

Definition sampleVaccination : DCCVaccination :=
  {| vacc_DiseaseTargeted := "840539006";
     MedicinalProduct := "EU/1/20/1528";
     DoseNumber := 2;
     TotalSeriesOfDoses := 2;
     DateOfVaccination := "2021-05-01" |}.

Definition sampleRecovery : DCCRecovery :=
  {| rec_DiseaseTargeted := "840539006";
     DateOfFirstPositiveTest := "2021-03-01";
     CertificateValidFrom := "2021-03-20";
     CertificateValidUntil := "2021-07-01" |}.

Definition sampleDCC : DCC :=
  {| DateOfBirth := "1990-05";
     Name := sampleName;
     Vaccinations := [];
     Tests := [sampleTest];
     Recoveries := [] |}.

(** Issued on 2021-06-01 at 12:00 UTC for 28 days, by another country. *)
Definition sampleHcert : HealthCertificate :=
  {| Issuer := "DE";
     IssuedAt := 1622548800;
     ExpirationTime := 1624968000;
     hcert_DCC := sampleDCC |}.

(** The details that [sampleHcert] leads to. *)
Definition sampleDetails : VerificationDetails :=
  {| CredentialVersion := "1"; IsSpecimen := "0"; IssuerCountryCode := "";
     FirstNameInitial := "A"; LastNameInitial := "J";
     BirthDay := "XX"; BirthMonth := "05" |}.

(** A certificate of the local issuer that no rule would accept: it expires
    before it is issued and carries no name and no statement. *)
Definition sampleNLHcert : HealthCertificate :=
  {| Issuer := "NL";
     IssuedAt := 1622548800;
     ExpirationTime := 1000;
     hcert_DCC := {| DateOfBirth := "unknown";
                     Name := {| StandardizedFamilyName := ""; StandardizedGivenName := "" |};
                     Vaccinations := []; Tests := []; Recoveries := [] |} |}.

(** 2021-06-01 at 20:00 UTC, ten hours after the collection of [sampleTest]. *)
Definition sampleNow : GoTime.Time := GoTime.Unix 1622577600 0.

(** An external verifier that decodes: the empty payload is refused, a
    payload that starts with byte 0 holds the local certificate, any other
    one the foreign certificate. *)
Definition sampleVerifier (payload : list Byte.byte) : HealthCertificate + error :=
  match payload with
  | [] => inr (Errorf "Could not decode" [])
  | Byte.x00 :: _ => inl sampleNLHcert
  | _ :: _ => inl sampleHcert
  end.

(** * Properties *)

(** ** The syntax of the pattern *)

Example dateOfBirthRegex_syntax :
  dateOfBirthRegex =
  let d := Regexp.digit in
  let dd := Regexp.OpConcat d d in
  let dash := Regexp.OpLiteral "-"%char in
  let lit a b := Regexp.OpConcat (Regexp.OpLiteral a) (Regexp.OpLiteral b) in
  Regexp.OpConcat Regexp.OpBeginText
    (Regexp.OpConcat
       (Regexp.OpQuest
          (Regexp.OpConcat
             (Regexp.OpCapture 1
                (Regexp.OpConcat
                   (Regexp.OpAlternate (lit "1" "9") (lit "2" "0"))%char
                   dd))
             (Regexp.OpQuest
                (Regexp.OpConcat dash
                   (Regexp.OpConcat
                      (Regexp.OpCapture 2 dd)
                      (Regexp.OpQuest
                         (Regexp.OpConcat dash (Regexp.OpCapture 3 dd))))))))
       Regexp.OpEndText).
Proof. reflexivity. Qed.

Example dateOfBirthRegex_groups : Regexp.NumSubexp dateOfBirthRegex = 3%nat.
Proof. reflexivity. Qed.

Example parse_year_month : parseDateOfBirth "2001-02" = ("2001", "02", "", None).
Proof. reflexivity. Qed.

Example parse_not_anchored : parseDateOfBirth "x1990" = ("", "", "", Some regexError).
Proof. reflexivity. Qed.

Example parse_short_month : parseDateOfBirth "1990-1" = ("", "", "", Some regexError).
Proof. reflexivity. Qed.

Example parse_no_dashes : parseDateOfBirth "19900101" = ("", "", "", Some regexError).
Proof. reflexivity. Qed.

(** ** The calendar instance and the samples at work *)

Example Civil_epoch : Civil.Parse RFC3339 "1970-01-01T00:00:00Z" = Some (GoTime.Unix 0 0).
Proof. reflexivity. Qed.

Example Civil_date : Civil.Parse YYYYMMDD_FORMAT "2021-06-01" = Some (GoTime.Unix 1622505600 0).
Proof. reflexivity. Qed.

Example Civil_bad_date : Civil.Parse YYYYMMDD_FORMAT "2021-02-30" = None.
Proof. reflexivity. Qed.

(** The scenario of the test rule: ten hours after the collection the test
    is accepted under a validity of 48 hours, fifty hours after it is not. *)
Example scenario_test_10_hours :
  validateTest Civil.Parse sampleTest sampleRules sampleNow = None.
Proof. reflexivity. Qed.

Example scenario_test_50_hours :
  validateTest Civil.Parse sampleTest sampleRules (GoTime.Unix (1622541600 + 50 * 3600) 0)
  = Some (Errorf "Time of collection is more than %s ago"
            [ArgDurationString (48 * GoTime.Hour)]).
Proof. reflexivity. Qed.

Example scenario_whole_certificate :
  verifyEuropean Civil.Parse sampleVerifier [Byte.x01] sampleRules sampleNow
  = (Some sampleDetails, false, None).
Proof. reflexivity. Qed.

Example scenario_vaccination :
  validateVaccination Civil.Parse sampleVaccination sampleRules sampleNow = None.
Proof. reflexivity. Qed.


(** ** The regular expression against the shapes *)

Lemma inClass_digit (c : ascii) : Regexp.inClass [("0"%char, "9"%char)] c = isDigit c.
Proof.
  unfold Regexp.inClass, Regexp.inRange, isDigit. simpl existsb.
  now rewrite orb_false_r.
Qed.

(** A pattern that starts with [^] matches at offset 0 or nowhere. *)
Lemma findFrom_anchored (r : Regexp.syntax) (n pos : nat) (rest : string) :
  (0 < pos)%nat ->
  Regexp.findFrom (Regexp.OpConcat Regexp.OpBeginText r) n pos rest = None.
Proof.
  revert pos. induction rest as [|c rest IH]; intros pos Hpos; simpl.
  - destruct pos; [lia | reflexivity].
  - destruct pos; [lia |]. simpl. apply IH. lia.
Qed.

Ltac norm_tests :=
  cbn -[Regexp.inClass Ascii.eqb isDigit];
  repeat match goal with
  | |- context [Ascii.eqb ?a ?b] =>
      tryif is_var a then fail else
        (let v := eval vm_compute in (Ascii.eqb a b) in
         change (Ascii.eqb a b) with v;
         cbn -[Regexp.inClass Ascii.eqb isDigit])
  end.

Ltac split_tests :=
  repeat match goal with
  | |- context [Ascii.eqb ?c ?a] =>
      is_var c;
      let E := fresh "E" in
      destruct (Ascii.eqb c a) eqn:E;
      [ apply Ascii.eqb_eq in E; subst c | ];
      norm_tests
  | |- context [isDigit ?c] =>
      is_var c;
      let E := fresh "D" in
      destruct (isDigit c) eqn:E;
      norm_tests
  end.

(** Texts of length 0 to 10, character by character, and the longer ones. *)
Ltac peel s :=
  let c1 := fresh "c" in let c2 := fresh "c" in let c3 := fresh "c" in
  let c4 := fresh "c" in let c5 := fresh "c" in let c6 := fresh "c" in
  let c7 := fresh "c" in let c8 := fresh "c" in let c9 := fresh "c" in
  let c10 := fresh "c" in let c11 := fresh "c" in
  destruct s as [|c1 s]; [|
  destruct s as [|c2 s]; [|
  destruct s as [|c3 s]; [|
  destruct s as [|c4 s]; [|
  destruct s as [|c5 s]; [|
  destruct s as [|c6 s]; [|
  destruct s as [|c7 s]; [|
  destruct s as [|c8 s]; [|
  destruct s as [|c9 s]; [|
  destruct s as [|c10 s]; [|
  destruct s as [|c11 s] ]]]]]]]]]].

(** The submatches of [dateOfBirthRegex] are the parts cut by position. *)
Lemma FindStringSubmatch_dateOfBirth (s : string) :
  Regexp.FindStringSubmatch dateOfBirthRegex s =
  match dobParts centuryYear s with
  | Some (y, m, d) => [s; y; m; d]
  | None => []
  end.
Proof.
  unfold Regexp.FindStringSubmatch, dateOfBirthRegex.
  peel s.
  all: unfold Regexp.findFrom; fold Regexp.findFrom; rewrite ?findFrom_anchored by lia.
  all: unfold dobParts, centuryYear, twoDigits, dashAt.
  all: cbn -[Regexp.inClass Ascii.eqb isDigit].
  all: rewrite ?inClass_digit.
  all: split_tests.
  all: reflexivity.
Qed.

Lemma parseDateOfBirth_parts (s : string) :
  parseDateOfBirth s =
  match dobParts centuryYear s with
  | Some (y, m, d) => (y, m, d, None)
  | None => ("", "", "", Some regexError)
  end.
Proof.
  unfold parseDateOfBirth. rewrite FindStringSubmatch_dateOfBirth.
  destruct (dobParts centuryYear s) as [[[y m] d]|]; reflexivity.
Qed.

Lemma twoDigits_inv (m : string) :
  twoDigits m = true ->
  exists a b, m = String a (String b "") /\ isDigit a = true /\ isDigit b = true.
Proof.
  destruct m as [|a [|b [|c m]]]; simpl; try discriminate.
  intros H. apply andb_true_iff in H. exists a, b. tauto.
Qed.

Lemma length4_inv (y : string) :
  String.length y = 4%nat ->
  exists a b c d, y = String a (String b (String c (String d ""))).
Proof.
  destruct y as [|a [|b [|c [|d [|e y]]]]]; simpl; try discriminate.
  intros _. now exists a, b, c, d.
Qed.

Lemma fourDigitYear_length (y : string) : fourDigitYear y = true -> String.length y = 4%nat.
Proof.
  destruct y as [|a [|b [|c [|d [|e y]]]]]; simpl; try discriminate. reflexivity.
Qed.

Lemma centuryYear_length (y : string) : centuryYear y = true -> String.length y = 4%nat.
Proof.
  destruct y as [|a [|b [|c [|d [|e y]]]]]; simpl; try discriminate. reflexivity.
Qed.

Lemma centuryYear_fourDigitYear (y : string) : centuryYear y = true -> fourDigitYear y = true.
Proof.
  destruct y as [|a [|b [|c [|d [|e y]]]]]; simpl; try discriminate.
  intros H. apply andb_true_iff in H. destruct H as [H Hd].
  apply andb_true_iff in H. destruct H as [H Hc]. rewrite Hc, Hd.
  apply orb_true_iff in H.
  destruct H as [H|H]; apply andb_true_iff in H; destruct H as [Ha Hb];
    apply Ascii.eqb_eq in Ha, Hb; subst; reflexivity.
Qed.

Section Shapes.

Variable yearOk : string -> bool.
Hypothesis yearOk_length : forall y, yearOk y = true -> String.length y = 4%nat.

Lemma dobParts_complete (s : string) : dobShape yearOk s -> dobParts yearOk s <> None.
Proof.
  intros [H | [H | [(y & m & H & Hy & Hm) | (y & m & d & H & Hy & Hm & Hd)]]].
  - subst s. discriminate.
  - destruct (length4_inv s (yearOk_length s H)) as (a & b & c & d & ->).
    unfold dobParts. cbn. rewrite H. discriminate.
  - destruct (length4_inv y (yearOk_length y Hy)) as (a & b & c & d & ->).
    destruct (twoDigits_inv m Hm) as (e & f & -> & He & Hf).
    subst s. unfold dobParts, dashAt. cbn -[twoDigits]. rewrite Hy, Hm. discriminate.
  - destruct (length4_inv y (yearOk_length y Hy)) as (a & b & c & d' & ->).
    destruct (twoDigits_inv m Hm) as (e & f & -> & He & Hf).
    destruct (twoDigits_inv d Hd) as (g & h & -> & Hg & Hh).
    subst s. unfold dobParts, dashAt. cbn -[twoDigits]. rewrite Hy, Hm, Hd. discriminate.
Qed.

Lemma dobParts_sound (s y m d : string) :
  dobParts yearOk s = Some (y, m, d) ->
  (s = "" /\ y = "" /\ m = "" /\ d = "")
  \/ (s = y /\ yearOk y = true /\ m = "" /\ d = "")
  \/ (s = y ++ "-" ++ m /\ yearOk y = true /\ twoDigits m = true /\ d = "")
  \/ (s = y ++ "-" ++ m ++ "-" ++ d
      /\ yearOk y = true /\ twoDigits m = true /\ twoDigits d = true).
Proof.
  unfold dobParts, dashAt. peel s; cbn -[twoDigits]; try discriminate.
  - intros [= <- <- <-]. left. auto.
  - destruct (yearOk _) eqn:Hy; [|discriminate].
    intros [= <- <- <-]. right. left. auto.
  - destruct (yearOk _) eqn:Hy; [|discriminate].
    destruct (Ascii.eqb c3 "-") eqn:E; [|discriminate]. apply Ascii.eqb_eq in E. subst.
    destruct (twoDigits _) eqn:Hm; [|discriminate].
    intros [= <- <- <-]. right. right. left. auto.
  - destruct (yearOk _) eqn:Hy; [|discriminate].
    destruct (Ascii.eqb c3 "-") eqn:E; [|discriminate]. apply Ascii.eqb_eq in E. subst.
    destruct (twoDigits (String c4 _)) eqn:Hm; [|discriminate].
    destruct (Ascii.eqb c6 "-") eqn:E; [|discriminate]. apply Ascii.eqb_eq in E. subst.
    destruct (twoDigits (String c7 _)) eqn:Hd; [|discriminate].
    intros [= <- <- <-]. right. right. right. auto.
Qed.

Lemma dobParts_shape (s : string) : dobParts yearOk s <> None <-> dobShape yearOk s.
Proof.
  split; [|apply dobParts_complete].
  destruct (dobParts yearOk s) as [[[y m] d]|] eqn:H; [intros _|congruence].
  apply dobParts_sound in H.
  destruct H as [(-> & _) | [(-> & Hy & _) | [(-> & Hy & Hm & _) | (-> & Hy & Hm & Hd)]]].
  - left. reflexivity.
  - right. left. exact Hy.
  - right. right. left. exists y, m. auto.
  - right. right. right. exists y, m, d. auto.
Qed.

End Shapes.

(** ** Date of birth *)

Lemma parseDateOfBirth_total (s : string) :
  (exists y m d, parseDateOfBirth s = (y, m, d, None))
  \/ parseDateOfBirth s = ("", "", "", Some regexError).
Proof.
  rewrite parseDateOfBirth_parts.
  destruct (dobParts centuryYear s) as [[[y m] d]|]; [left; now exists y, m, d | now right].
Qed.

Lemma parseDateOfBirth_ok_iff (s : string) :
  snd (parseDateOfBirth s) = None <-> dobShape centuryYear s.
Proof.
  rewrite <- (dobParts_shape centuryYear centuryYear_length), parseDateOfBirth_parts.
  destruct (dobParts centuryYear s) as [[[y m] d]|]; simpl; split; congruence.
Qed.

Lemma validateDateOfBirth_parse (s : string) :
  validateDateOfBirth s = wrapping "Invalid date of birth" (snd (parseDateOfBirth s)).
Proof.
  unfold validateDateOfBirth. now destruct (parseDateOfBirth s) as [[[y m] d] e].
Qed.

Lemma validateDateOfBirth_ok_iff (s : string) :
  validateDateOfBirth s = None <-> snd (parseDateOfBirth s) = None.
Proof.
  rewrite validateDateOfBirth_parse.
  destruct (snd (parseDateOfBirth s)); simpl; split; congruence.
Qed.

(** C6, as amended: the date of birth is accepted exactly when it is empty,
    a year of four digits that starts with 19 or 20, such a year followed by
    a dash and two digits, or such a year followed by a dash, two digits, a
    dash and two digits; every other text is rejected with the error of the
    regular expression. *)
Theorem date_of_birth_accepted_shapes (s : string) :
  (snd (parseDateOfBirth s) = None <-> dobShape centuryYear s)
  /\ (validateDateOfBirth s = None <-> dobShape centuryYear s)
  /\ (~ dobShape centuryYear s ->
      parseDateOfBirth s = ("", "", "", Some regexError)
      /\ validateDateOfBirth s = Some (WrapPrefix regexError "Invalid date of birth")).
Proof.
  pose proof (parseDateOfBirth_ok_iff s) as Hp.
  split; [exact Hp|]. split.
  - rewrite validateDateOfBirth_ok_iff. exact Hp.
  - intros Hn. rewrite validateDateOfBirth_parse.
    destruct (parseDateOfBirth_total s) as [(y & m & d & H) | H]; rewrite H in *.
    + exfalso. apply Hn, Hp. reflexivity.
    + split; reflexivity.
Qed.

(** C6, as stated, fails: 1800 is a year of four digits, and it is rejected. *)
Lemma date_of_birth_four_digit_year_rejected :
  dobShape fourDigitYear "1800"
  /\ parseDateOfBirth "1800" = ("", "", "", Some regexError)
  /\ validateDateOfBirth "1800" = Some (WrapPrefix regexError "Invalid date of birth").
Proof.
  split; [right; left; reflexivity | split; reflexivity].
Qed.

(** The month and day delivered by the parser. *)
Lemma parseDateOfBirth_month_day (s y m d : string) :
  parseDateOfBirth s = (y, m, d, None) ->
  (m = "" \/ twoDigits m = true) /\ (d = "" \/ twoDigits d = true).
Proof.
  rewrite parseDateOfBirth_parts.
  destruct (dobParts centuryYear s) as [[[y' m'] d']|] eqn:H; [|discriminate].
  intros [= -> -> ->].
  apply (dobParts_sound centuryYear) in H.
  destruct H as [(_ & _ & -> & ->) | [(_ & _ & -> & ->) | [(_ & _ & Hm & ->) | (_ & _ & Hm & Hd)]]];
    auto.
Qed.

Lemma redact_twoDigits (m : string) :
  m = "" \/ twoDigits m = true ->
  let r := if String.eqb m "" then DOB_EMPTY_VALUE else m in
  (twoDigits r = true \/ r = DOB_EMPTY_VALUE) /\ r <> "".
Proof.
  intros [-> | H]; simpl.
  - split; [now right | discriminate].
  - destruct (twoDigits_inv m H) as (a & b & -> & _). simpl.
    split; [now left | discriminate].
Qed.

Lemma initial_firstChar (s : string) :
  (if (0 <? String.length s)%nat then substring 0 1 s else "") = firstChar s.
Proof.
  destruct s as [|c s]; simpl; [reflexivity|]. now destruct s.
Qed.

Lemma firstChar_length (s : string) : (String.length (firstChar s) <= 1)%nat.
Proof. destruct s; simpl; lia. Qed.

Lemma buildVerificationDetails_eq (hcert : HealthCertificate) (isSpecimen : bool) :
  buildVerificationDetails hcert isSpecimen =
  match parseDateOfBirth (DateOfBirth (hcert_DCC hcert)) with
  | (_, _, _, Some err) => (None, Some (WrapPrefix err "Could not parse date of birth"))
  | (_, birthMonth, birthDay, None) =>
      (Some {| CredentialVersion := "1";
               IsSpecimen := if isSpecimen then "1" else "0";
               IssuerCountryCode := "";
               BirthMonth := if String.eqb birthMonth "" then DOB_EMPTY_VALUE else birthMonth;
               BirthDay := if String.eqb birthDay "" then DOB_EMPTY_VALUE else birthDay;
               FirstNameInitial := firstChar (StandardizedGivenName (Name (hcert_DCC hcert)));
               LastNameInitial := firstChar (StandardizedFamilyName (Name (hcert_DCC hcert))) |},
       None)
  end.
Proof.
  unfold buildVerificationDetails.
  destruct (parseDateOfBirth _) as [[[y m] d] [e|]]; [reflexivity|].
  now rewrite !initial_firstChar.
Qed.

(** C8: the details built by [buildVerificationDetails] carry, as initials,
    the first character of each standardized name (nothing for an empty
    name), so at most one character each, and, as birth month and birth day,
    two digits or the marker XX, never the empty text. *)
Theorem details_privacy_invariant (hcert : HealthCertificate) (isSpecimen : bool)
    (details : VerificationDetails) :
  buildVerificationDetails hcert isSpecimen = (Some details, None) ->
  FirstNameInitial details = firstChar (StandardizedGivenName (Name (hcert_DCC hcert)))
  /\ LastNameInitial details = firstChar (StandardizedFamilyName (Name (hcert_DCC hcert)))
  /\ (String.length (FirstNameInitial details) <= 1)%nat
  /\ (String.length (LastNameInitial details) <= 1)%nat
  /\ (twoDigits (BirthMonth details) = true \/ BirthMonth details = DOB_EMPTY_VALUE)
  /\ (twoDigits (BirthDay details) = true \/ BirthDay details = DOB_EMPTY_VALUE)
  /\ BirthMonth details <> ""
  /\ BirthDay details <> "".
Proof.
  rewrite buildVerificationDetails_eq.
  destruct (parseDateOfBirth _) as [[[y m] d] [e|]] eqn:Hparse; [discriminate|].
  intros [= <-]. cbn [FirstNameInitial LastNameInitial BirthMonth BirthDay].
  destruct (parseDateOfBirth_month_day _ _ _ _ Hparse) as [Hm Hd].
  destruct (redact_twoDigits m Hm) as [Hm1 Hm2].
  destruct (redact_twoDigits d Hd) as [Hd1 Hd2].
  repeat split; auto using firstChar_length.
Qed.

(** ** From validation to the details *)

Lemma validateDCC_dateOfBirth (Parse : string -> string -> option GoTime.Time)
    (dcc : DCC) (rules : europeanVerificationRules) (now : GoTime.Time) :
  validateDCC Parse dcc rules now = None ->
  snd (parseDateOfBirth (DateOfBirth dcc)) = None.
Proof.
  unfold validateDCC. intros H. apply validateDateOfBirth_ok_iff.
  destruct (validateDateOfBirth (DateOfBirth dcc)); [discriminate | reflexivity].
Qed.

Lemma buildVerificationDetails_ok (hcert : HealthCertificate) (isSpecimen : bool) :
  snd (parseDateOfBirth (DateOfBirth (hcert_DCC hcert))) = None ->
  exists details, buildVerificationDetails hcert isSpecimen = (Some details, None).
Proof.
  rewrite buildVerificationDetails_eq.
  destruct (parseDateOfBirth _) as [[[y m] d] [e|]]; simpl; [discriminate|].
  intros _. eexists. reflexivity.
Qed.

(** C9: once [validateDCC] has accepted the DCC of a certificate,
    [buildVerificationDetails] returns details and no error, for the date of
    birth it parses again was validated; and a run of [verifyEuropean] that
    ends with no error and is not the NL case returns details. *)
Theorem validated_certificate_builds_details
    (Parse : string -> string -> option GoTime.Time)
    (VerifyQREncoded : list Byte.byte -> HealthCertificate + error) :
  (forall hcert rules now isSpecimen,
      validateDCC Parse (hcert_DCC hcert) rules now = None ->
      exists details, buildVerificationDetails hcert isSpecimen = (Some details, None))
  /\ (forall proofQREncoded rules now details,
      verifyEuropean Parse VerifyQREncoded proofQREncoded rules now = (details, false, None) ->
      details <> None).
Proof.
  assert (Hbuild : forall hcert rules now isSpecimen,
      validateDCC Parse (hcert_DCC hcert) rules now = None ->
      exists details, buildVerificationDetails hcert isSpecimen = (Some details, None)).
  { intros hcert rules now isSpecimen H.
    apply buildVerificationDetails_ok. eapply validateDCC_dateOfBirth, H. }
  split; [exact Hbuild|].
  intros payload rules now details. unfold verifyEuropean.
  destruct (VerifyQREncoded payload) as [hcert|err]; [|discriminate].
  destruct (String.eqb (Issuer hcert) NL_COUNTRY_CODE); [discriminate|].
  destruct (validateHcert hcert now) as [isSpecimen [err|]]; [discriminate|].
  destruct (validateDCC Parse (hcert_DCC hcert) rules now) eqn:Hdcc; [discriminate|].
  destruct (Hbuild hcert rules now isSpecimen Hdcc) as [d ->].
  intros [= <-]. discriminate.
Qed.

Lemma validated_certificate_builds_details_witness :
  (exists details, buildVerificationDetails sampleHcert false = (Some details, None))
  /\ fst (fst (verifyEuropean Civil.Parse sampleVerifier [Byte.x01] sampleRules sampleNow)) <> None.
Proof.
  split.
  - apply (proj1 (validated_certificate_builds_details Civil.Parse sampleVerifier)
             sampleHcert sampleRules sampleNow false).
    vm_compute. reflexivity.
  - apply (proj2 (validated_certificate_builds_details Civil.Parse sampleVerifier)
             [Byte.x01] sampleRules sampleNow).
    vm_compute. reflexivity.
Defined.

(** ** No calendar check on the date of birth *)

Lemma parseDateOfBirth_full (y m d : string) :
  centuryYear y = true -> twoDigits m = true -> twoDigits d = true ->
  parseDateOfBirth (y ++ "-" ++ m ++ "-" ++ d) = (y, m, d, None).
Proof.
  intros Hy Hm Hd. rewrite parseDateOfBirth_parts.
  destruct (length4_inv y (centuryYear_length y Hy)) as (a & b & c & e & ->).
  destruct (twoDigits_inv m Hm) as (f & g & -> & _).
  destruct (twoDigits_inv d Hd) as (h & i & -> & _).
  unfold dobParts, dashAt. cbn -[twoDigits centuryYear]. now rewrite Hy, Hm, Hd.
Qed.

(** C10: the month and day of a date of birth are any two digits: the text
    1990-13-45, whose month 13 and day 45 exist in no calendar, is parsed and
    validated without error, and [buildVerificationDetails] copies 13 and 45
    as they are into the birth month and the birth day. *)
Theorem date_of_birth_no_calendar_check :
  exists dob month day,
    Civil.number month = Some 13 /\ Civil.number day = Some 45
    /\ parseDateOfBirth dob = ("1990", month, day, None)
    /\ validateDateOfBirth dob = None
    /\ forall hcert isSpecimen,
        DateOfBirth (hcert_DCC hcert) = dob ->
        exists details,
          buildVerificationDetails hcert isSpecimen = (Some details, None)
          /\ BirthMonth details = month /\ BirthDay details = day.
Proof.
  exists ("1990" ++ "-" ++ "13" ++ "-" ++ "45"), "13", "45".
  assert (Hparse : parseDateOfBirth ("1990" ++ "-" ++ "13" ++ "-" ++ "45")
                   = ("1990", "13", "45", None))
    by (apply parseDateOfBirth_full; reflexivity).
  split; [reflexivity|]. split; [reflexivity|]. split; [exact Hparse|]. split.
  - rewrite validateDateOfBirth_parse, Hparse. reflexivity.
  - intros hcert isSpecimen Hdob. rewrite buildVerificationDetails_eq, Hdob, Hparse.
    eexists. split; [reflexivity|]. split; reflexivity.
Qed.

(** ** The certificate of the local issuer *)

(** C7: when the external verifier delivers a certificate whose issuer is
    NL, [verifyEuropean] returns no details, the NL flag and no error,
    whatever the metadata, the DCC, the rules and the time are: nothing of
    the certificate is validated. *)
Theorem nl_certificate_passes_through
    (Parse : string -> string -> option GoTime.Time)
    (VerifyQREncoded : list Byte.byte -> HealthCertificate + error)
    (proofQREncoded : list Byte.byte) (hcert : HealthCertificate)
    (rules : europeanVerificationRules) (now : GoTime.Time) :
  VerifyQREncoded proofQREncoded = inl hcert ->
  Issuer hcert = NL_COUNTRY_CODE ->
  verifyEuropean Parse VerifyQREncoded proofQREncoded rules now = (None, true, None).
Proof.
  intros Hverified Hissuer. unfold verifyEuropean.
  rewrite Hverified. apply String.eqb_eq in Hissuer. now rewrite Hissuer.
Qed.

Lemma nl_certificate_passes_through_witness :
  snd (validateHcert sampleNLHcert sampleNow) <> None
  /\ validateDCC Civil.Parse (hcert_DCC sampleNLHcert) sampleRules sampleNow <> None
  /\ verifyEuropean Civil.Parse sampleVerifier [Byte.x00] sampleRules sampleNow
     = (None, true, None).
Proof.
  split; [vm_compute; discriminate|]. split; [vm_compute; discriminate|].
  apply (nl_certificate_passes_through Civil.Parse sampleVerifier [Byte.x00] sampleNLHcert);
    reflexivity.
Defined.

(** ** Time arithmetic *)

Lemma wrap64_small (z : Z) : MinInt64 <= z <= MaxInt64 -> wrap 64 z = z.
Proof.
  unfold MinInt64, MaxInt64, wrap. intros H.
  change (2 ^ (64 - 1)) with 9223372036854775808.
  change (2 ^ 64) with 18446744073709551616.
  change (2 ^ 63) with 9223372036854775808 in H.
  rewrite Z.mod_small; lia.
Qed.

Lemma Before_lt (t u : GoTime.Time) : GoTime.Before t u = true <-> t < u.
Proof. unfold GoTime.Before. apply Z.ltb_lt. Qed.

Lemma Before_ge (t u : GoTime.Time) : GoTime.Before t u = false <-> u <= t.
Proof. unfold GoTime.Before. apply Z.ltb_ge. Qed.

Lemma Hours_exact (n : Z) :
  -2562047 <= n <= 2562047 -> GoTime.Hours n = n * GoTime.Hour.
Proof.
  intros H. unfold GoTime.Hours, int64. apply wrap64_small.
  unfold MinInt64, MaxInt64, GoTime.Hour, GoTime.Second.
  change (2 ^ 63) with 9223372036854775808. lia.
Qed.

Lemma daysDuration_exact (days : Z) :
  -106751 <= days <= 106751 -> daysDuration days = days * (24 * GoTime.Hour).
Proof.
  intros H. unfold daysDuration, int.
  rewrite wrap64_small.
  - rewrite Hours_exact by lia. unfold GoTime.Hour, GoTime.Second. lia.
  - unfold MinInt64, MaxInt64. change (2 ^ 63) with 9223372036854775808. lia.
Qed.

Lemma Unix_exact (sec : Z) :
  unixInRange sec -> GoTime.Unix sec 0 = (sec + GoTime.unixToInternal) * GoTime.Second.
Proof.
  intros [Hlo Hhi]. unfold GoTime.Unix. cbn [Z.ltb Z.leb Z.compare orb GoTime.Second].
  unfold int64. rewrite wrap64_small; [lia|].
  unfold GoTime.unixToInternal in *. lia.
Qed.

Lemma Unix_Before (a b : Z) :
  unixInRange a -> unixInRange b ->
  (GoTime.Before (GoTime.Unix a 0) (GoTime.Unix b 0) = true <-> a < b).
Proof.
  intros Ha Hb. rewrite Before_lt, !Unix_exact by assumption.
  unfold GoTime.Second. lia.
Qed.

(** ** The test statement *)

(** C1, as amended: for a test statement with the COVID-19 disease code, an
    allowed type, the not-detected result and a collection time that parses,
    [validateTest] succeeds exactly when now lies in the closed window from
    the collection time to the collection time plus the validity duration,
    both ends included; it fails before the collection time and strictly
    after the end.  The duration is that of [TestValidityHours] hours, in
    [int64] nanoseconds: exactly so many hours up to 2562047 hours. *)
Theorem test_valid_in_closed_window
    (Parse : string -> string -> option GoTime.Time)
    (test : DCCTest) (rules : europeanVerificationRules) (now doc : GoTime.Time) :
  test_DiseaseTargeted test = DISEASE_TARGETED_COVID_19 ->
  containsString (TestAllowedTypes rules) (TypeOfTest test) = true ->
  TestResult test = TEST_RESULT_NOT_DETECTED ->
  Parse RFC3339 (DateTimeOfCollection test) = Some doc ->
  let windowEnd := GoTime.Add doc (GoTime.Hours (TestValidityHours rules)) in
  (validateTest Parse test rules now = None <-> doc <= now <= windowEnd)
  /\ (validateTest Parse test rules now <> None <-> now < doc \/ windowEnd < now)
  /\ (-2562047 <= TestValidityHours rules <= 2562047 ->
      windowEnd = doc + TestValidityHours rules * GoTime.Hour).
Proof.
  intros Hdisease Htype Hresult Hparse windowEnd.
  apply String.eqb_eq in Hdisease, Hresult.
  unfold validateTest. rewrite Hdisease, Htype, Hresult, Hparse. cbn [negb].
  fold windowEnd.
  assert (Hexact : -2562047 <= TestValidityHours rules <= 2562047 ->
                   windowEnd = doc + TestValidityHours rules * GoTime.Hour).
  { intros Hh. subst windowEnd. unfold GoTime.Add. now rewrite Hours_exact. }
  clearbody windowEnd.
  destruct (GoTime.Before windowEnd now) eqn:Hend;
    [apply Before_lt in Hend | apply Before_ge in Hend].
  { repeat split; try assumption; try discriminate; intros; lia. }
  destruct (GoTime.Before now doc) eqn:Hstart;
    [apply Before_lt in Hstart | apply Before_ge in Hstart].
  { repeat split; try assumption; try discriminate; intros; lia. }
  repeat split; try assumption; try lia; intros H; try contradiction; lia.
Qed.

Lemma test_valid_in_closed_window_witness :
  validateTest Civil.Parse sampleTest sampleRules sampleNow = None.
Proof.
  apply (test_valid_in_closed_window Civil.Parse sampleTest sampleRules sampleNow
           (GoTime.Unix 1622541600 0)); try reflexivity.
  vm_compute. split; discriminate.
Defined.

(** C1, as stated, fails: 48 hours to the nanosecond after the collection
    now is at the end of the window, outside the half-open window, and the
    test is still accepted. *)
Lemma test_accepted_at_window_end :
  exists doc now : GoTime.Time,
    test_DiseaseTargeted sampleTest = DISEASE_TARGETED_COVID_19
    /\ containsString (TestAllowedTypes sampleRules) (TypeOfTest sampleTest) = true
    /\ TestResult sampleTest = TEST_RESULT_NOT_DETECTED
    /\ Civil.Parse RFC3339 (DateTimeOfCollection sampleTest) = Some doc
    /\ TestValidityHours sampleRules = 48
    /\ now = doc + 48 * GoTime.Hour
    /\ ~ (doc <= now < doc + 48 * GoTime.Hour)
    /\ validateTest Civil.Parse sampleTest sampleRules now = None.
Proof.
  exists (GoTime.Unix 1622541600 0), (GoTime.Unix 1622714400 0).
  repeat (split; [reflexivity|]).
  split; [|reflexivity].
  vm_compute. intros [_ H]. discriminate H.
Qed.

(** ** The vaccination statement *)

(** C3: [validateVaccination] fails on the dose count, with the error of
    that rule, exactly when the disease and the product are accepted and the
    dose number is strictly smaller than the total of the series; a dose
    number equal to or greater than the total never fails that rule. *)
Theorem dose_count_rule
    (Parse : string -> string -> option GoTime.Time)
    (vacc : DCCVaccination) (rules : europeanVerificationRules) (now : GoTime.Time) :
  let doseError :=
    Errorf "Dose number is smaller than the specified total amount of doses" [] in
  (validateVaccination Parse vacc rules now = Some doseError <->
     vacc_DiseaseTargeted vacc = DISEASE_TARGETED_COVID_19
     /\ containsString (VaccineAllowedProducts rules) (MedicinalProduct vacc) = true
     /\ DoseNumber vacc < TotalSeriesOfDoses vacc)
  /\ (TotalSeriesOfDoses vacc <= DoseNumber vacc ->
      validateVaccination Parse vacc rules now <> Some doseError)
  /\ (DoseNumber vacc = TotalSeriesOfDoses vacc ->
      validateVaccination Parse vacc rules now <> Some doseError).
Proof.
  intros doseError.
  assert (Hiff : validateVaccination Parse vacc rules now = Some doseError <->
     vacc_DiseaseTargeted vacc = DISEASE_TARGETED_COVID_19
     /\ containsString (VaccineAllowedProducts rules) (MedicinalProduct vacc) = true
     /\ DoseNumber vacc < TotalSeriesOfDoses vacc).
  { unfold validateVaccination, doseError.
    destruct (String.eqb (vacc_DiseaseTargeted vacc) DISEASE_TARGETED_COVID_19) eqn:Hdisease;
      cbn [negb].
    2: { apply String.eqb_neq in Hdisease. split; [discriminate | tauto]. }
    apply String.eqb_eq in Hdisease.
    destruct (containsString (VaccineAllowedProducts rules) (MedicinalProduct vacc));
      cbn [negb].
    2: { split; [discriminate | intros (_ & H & _); discriminate H]. }
    destruct (DoseNumber vacc <? TotalSeriesOfDoses vacc) eqn:Hdose.
    { apply Z.ltb_lt in Hdose. tauto. }
    apply Z.ltb_ge in Hdose.
    split; [|lia].
    destruct (Parse YYYYMMDD_FORMAT (DateOfVaccination vacc)); [|discriminate].
    cbv zeta. destruct (GoTime.Before _ _); discriminate. }
  split; [exact Hiff|].
  split; intros Hdose Herr; apply Hiff in Herr; lia.
Qed.

Lemma dose_count_rule_witness :
  validateVaccination Civil.Parse sampleVaccination sampleRules sampleNow
  <> Some (Errorf "Dose number is smaller than the specified total amount of doses" []).
Proof.
  apply (proj2 (proj2 (dose_count_rule Civil.Parse sampleVaccination sampleRules sampleNow))).
  reflexivity.
Defined.

(** ** The metadata of the certificate *)

(** C4: with the reserved expiration time 42, [validateHcert] returns the
    specimen flag and no error at once.  Otherwise it returns no specimen
    flag, and an error exactly when the expiration time is before the time
    of issue, or now is before the time of issue, or the expiration time is
    before now, the three errors being different from one another; the
    times are those [time.Unix] makes of the two fields, which follow the
    order of the fields as long as [time.Unix] stays inside [int64]. *)
Theorem hcert_metadata_validation (hcert : HealthCertificate) (now : GoTime.Time) :
  let issuedAt := GoTime.Unix (IssuedAt hcert) 0 in
  let expirationTime := GoTime.Unix (ExpirationTime hcert) 0 in
  let issuedAfterExpiry := Errorf "Cannot be issued after it expires" [] in
  let notYetIssued := Errorf "Is issued before the current time" [] in
  let expired :=
    Errorf "Is not valid anymore; was valid until %d" [ArgInt (ExpirationTime hcert)] in
  (ExpirationTime hcert = HCERT_SPECIMEN_EXPIRATION_TIME ->
     validateHcert hcert now = (true, None))
  /\ (ExpirationTime hcert <> HCERT_SPECIMEN_EXPIRATION_TIME ->
      fst (validateHcert hcert now) = false
      /\ (snd (validateHcert hcert now) <> None <->
            GoTime.Before expirationTime issuedAt = true
            \/ GoTime.Before now issuedAt = true
            \/ GoTime.Before expirationTime now = true)
      /\ (GoTime.Before expirationTime issuedAt = true ->
          snd (validateHcert hcert now) = Some issuedAfterExpiry)
      /\ (GoTime.Before expirationTime issuedAt = false ->
          GoTime.Before now issuedAt = true ->
          snd (validateHcert hcert now) = Some notYetIssued)
      /\ (GoTime.Before expirationTime issuedAt = false ->
          GoTime.Before now issuedAt = false ->
          GoTime.Before expirationTime now = true ->
          snd (validateHcert hcert now) = Some expired)
      /\ (GoTime.Before expirationTime issuedAt = false ->
          GoTime.Before now issuedAt = false ->
          GoTime.Before expirationTime now = false ->
          validateHcert hcert now = (false, None)))
  /\ (issuedAfterExpiry <> notYetIssued /\ issuedAfterExpiry <> expired
      /\ notYetIssued <> expired)
  /\ (unixInRange (IssuedAt hcert) -> unixInRange (ExpirationTime hcert) ->
      (GoTime.Before expirationTime issuedAt = true <->
         ExpirationTime hcert < IssuedAt hcert)).
Proof.
  intros issuedAt expirationTime issuedAfterExpiry notYetIssued expired.
  split; [|split; [|split]].
  - intros Hspecimen. unfold validateHcert.
    apply Z.eqb_eq in Hspecimen. now rewrite Hspecimen.
  - intros Hreal. apply Z.eqb_neq in Hreal.
    unfold validateHcert. rewrite Hreal.
    fold issuedAt expirationTime.
    destruct (GoTime.Before expirationTime issuedAt) eqn:H1.
    { cbn [fst snd]. repeat split; try discriminate; auto. }
    destruct (GoTime.Before now issuedAt) eqn:H2.
    { cbn [fst snd]. repeat split; try discriminate; auto. }
    destruct (GoTime.Before expirationTime now) eqn:H3.
    { cbn [fst snd]. repeat split; try discriminate; auto. }
    cbn [fst snd]. repeat split; try discriminate; auto.
    intros [H | [H | H]]; discriminate H.
  - repeat split; discriminate.
  - intros Hi He. apply Unix_Before; assumption.
Qed.

Lemma hcert_metadata_validation_witness :
  validateHcert sampleHcert sampleNow = (false, None)
  /\ validateHcert (Build_HealthCertificate "DE" 1622548800 42 sampleDCC) sampleNow
     = (true, None).
Proof.
  pose proof (hcert_metadata_validation sampleHcert sampleNow) as Hreal.
  pose proof (hcert_metadata_validation
                (Build_HealthCertificate "DE" 1622548800 42 sampleDCC) sampleNow) as Hspecimen.
  cbv zeta in Hreal, Hspecimen.
  split.
  - apply (proj2 Hreal); [vm_compute; discriminate | reflexivity..].
  - apply (proj1 Hspecimen). reflexivity.
Defined.

(** ** The recovery statement *)

(** The later of the policy start and a start given by the certificate. *)
Lemma later_start (policy : GoTime.Time) (specified : option GoTime.Time) :
  match specified with
  | Some s => if GoTime.After s policy then s else policy
  | None => policy
  end
  = match specified with
    | Some s => Z.max policy s
    | None => policy
    end.
Proof.
  destruct specified as [s|]; [|reflexivity].
  unfold GoTime.After. destruct (policy <? s) eqn:H;
    [apply Z.ltb_lt in H | apply Z.ltb_ge in H]; lia.
Qed.

(** The earlier of the policy end and an end given by the certificate. *)
Lemma earlier_end (policy : GoTime.Time) (specified : option GoTime.Time) :
  match specified with
  | Some s => if GoTime.Before s policy then s else policy
  | None => policy
  end
  = match specified with
    | Some s => Z.min policy s
    | None => policy
    end.
Proof.
  destruct specified as [s|]; [|reflexivity].
  unfold GoTime.Before. destruct (s <? policy) eqn:H;
    [apply Z.ltb_lt in H | apply Z.ltb_ge in H]; lia.
Qed.

(** C5: for a recovery statement with the COVID-19 disease code and a date
    of first positive test that parses, the window runs from the test date
    plus the policy's valid-from days to the test date plus its valid-until
    days; a valid-from of the certificate that parses replaces the start
    only when it is later, a valid-until that parses replaces the end only
    when it is earlier; [validateRecovery] then fails exactly when the end
    is before the start, or now is before the start, or the end is before
    now, and succeeds otherwise. *)
Theorem recovery_window
    (Parse : string -> string -> option GoTime.Time)
    (rec : DCCRecovery) (rules : europeanVerificationRules) (now testDate : GoTime.Time) :
  rec_DiseaseTargeted rec = DISEASE_TARGETED_COVID_19 ->
  Parse YYYYMMDD_FORMAT (DateOfFirstPositiveTest rec) = Some testDate ->
  let policyFrom := GoTime.Add testDate (daysDuration (RecoveryValidFromDays rules)) in
  let policyUntil := GoTime.Add testDate (daysDuration (RecoveryValidUntilDays rules)) in
  let validFrom :=
    match Parse YYYYMMDD_FORMAT (CertificateValidFrom rec) with
    | Some specified => if policyFrom <? specified then specified else policyFrom
    | None => policyFrom
    end in
  let validUntil :=
    match Parse YYYYMMDD_FORMAT (CertificateValidUntil rec) with
    | Some specified => if specified <? policyUntil then specified else policyUntil
    | None => policyUntil
    end in
  (validateRecovery Parse rec rules now <> None <->
     validUntil < validFrom \/ now < validFrom \/ validUntil < now)
  /\ (validateRecovery Parse rec rules now = None <->
        validFrom <= validUntil /\ validFrom <= now <= validUntil)
  /\ validFrom
     = match Parse YYYYMMDD_FORMAT (CertificateValidFrom rec) with
       | Some specified => Z.max policyFrom specified
       | None => policyFrom
       end
  /\ validUntil
     = match Parse YYYYMMDD_FORMAT (CertificateValidUntil rec) with
       | Some specified => Z.min policyUntil specified
       | None => policyUntil
       end
  /\ (-106751 <= RecoveryValidFromDays rules <= 106751 ->
      policyFrom = testDate + RecoveryValidFromDays rules * (24 * GoTime.Hour))
  /\ (-106751 <= RecoveryValidUntilDays rules <= 106751 ->
      policyUntil = testDate + RecoveryValidUntilDays rules * (24 * GoTime.Hour)).
Proof.
  intros Hdisease Hparse policyFrom policyUntil validFrom validUntil.
  apply String.eqb_eq in Hdisease.
  assert (Hrun : validateRecovery Parse rec rules now =
                 if GoTime.Before validUntil validFrom then
                   Some (Errorf "Valid until cannot be before valid from" [])
                 else if GoTime.Before now validFrom then
                   Some (Errorf "Recovery is not yet valid" [])
                 else if GoTime.Before validUntil now then
                   Some (Errorf "Recovery is not valid anymore" [])
                 else None).
  { unfold validateRecovery. rewrite Hdisease, Hparse. reflexivity. }
  split; [|split; [|split; [|split; [|split]]]].
  - rewrite Hrun.
    destruct (GoTime.Before validUntil validFrom) eqn:H1;
      [apply Before_lt in H1 | apply Before_ge in H1].
    { split; [auto | discriminate]. }
    destruct (GoTime.Before now validFrom) eqn:H2;
      [apply Before_lt in H2 | apply Before_ge in H2].
    { split; [auto | discriminate]. }
    destruct (GoTime.Before validUntil now) eqn:H3;
      [apply Before_lt in H3 | apply Before_ge in H3].
    { split; [auto | discriminate]. }
    split; [congruence | lia].
  - rewrite Hrun.
    destruct (GoTime.Before validUntil validFrom) eqn:H1;
      [apply Before_lt in H1 | apply Before_ge in H1].
    { split; [discriminate | lia]. }
    destruct (GoTime.Before now validFrom) eqn:H2;
      [apply Before_lt in H2 | apply Before_ge in H2].
    { split; [discriminate | lia]. }
    destruct (GoTime.Before validUntil now) eqn:H3;
      [apply Before_lt in H3 | apply Before_ge in H3].
    { split; [discriminate | lia]. }
    split; [lia | reflexivity].
  - apply (later_start policyFrom).
  - apply (earlier_end policyUntil).
  - intros H. unfold policyFrom, GoTime.Add. now rewrite daysDuration_exact.
  - intros H. unfold policyUntil, GoTime.Add. now rewrite daysDuration_exact.
Qed.

(** 2021-06-01 at 20:00 lies in the window of [sampleRecovery], which the
    certificate narrows to run from 2021-03-20 to 2021-07-01. *)
Lemma recovery_window_witness :
  validateRecovery Civil.Parse sampleRecovery sampleRules sampleNow = None.
Proof.
  apply (recovery_window Civil.Parse sampleRecovery sampleRules sampleNow
           (GoTime.Unix 1614556800 0)); try reflexivity.
  vm_compute. repeat split; discriminate.
Defined.

(** ** The number of statements *)

Lemma validateStatementAmount_cases (dcc : DCC) :
  validateStatementAmount dcc =
  if (totalAmount dcc =? 0)%nat then Some noStatements
  else if (1 <? totalAmount dcc)%nat then
    Some (tooManyStatements (List.length (Vaccinations dcc)) (List.length (Tests dcc))
            (List.length (Recoveries dcc)))
  else None.
Proof. reflexivity. Qed.

(** The error of the statement amount tells the three amounts. *)
Lemma validateStatementAmount_names_amounts (dcc dcc' : DCC) (err : error) :
  validateStatementAmount dcc = Some err ->
  validateStatementAmount dcc' = Some err ->
  statementAmounts dcc' = statementAmounts dcc.
Proof.
  rewrite !validateStatementAmount_cases. unfold totalAmount, statementAmounts.
  destruct (_ =? 0)%nat eqn:H0; [apply Nat.eqb_eq in H0 | apply Nat.eqb_neq in H0].
  - intros [= <-].
    destruct (_ =? 0)%nat eqn:H0'; [apply Nat.eqb_eq in H0' | apply Nat.eqb_neq in H0'].
    + intros _. f_equal; [f_equal|]; lia.
    + destruct (1 <? _)%nat; discriminate.
  - destruct (1 <? _)%nat; [|discriminate]. intros [= <-].
    destruct (_ =? 0)%nat; [discriminate|].
    destruct (1 <? _)%nat; [|discriminate].
    unfold tooManyStatements. intros [= Hv Ht Hr].
    apply Nat2Z.inj in Hv, Ht, Hr. congruence.
Qed.

(** C2: the check of the statement amount fails exactly when the
    vaccination, test and recovery statements are not one in all; its error
    says that there are none, or gives the three amounts, so that the
    amounts can be read off the error; and [validateDCC] fails on such a DCC
    whatever its statements, the rules and the time are, with that error
    once the date of birth and the name are accepted. *)
Theorem statement_amount_rule
    (Parse : string -> string -> option GoTime.Time)
    (dcc : DCC) (rules : europeanVerificationRules) (now : GoTime.Time) :
  let vaccAmount := List.length (Vaccinations dcc) in
  let testAmount := List.length (Tests dcc) in
  let recAmount := List.length (Recoveries dcc) in
  let total := (vaccAmount + testAmount + recAmount)%nat in
  (validateStatementAmount dcc <> None <-> total <> 1%nat)
  /\ (total = 0%nat -> validateStatementAmount dcc = Some noStatements)
  /\ ((1 < total)%nat ->
      validateStatementAmount dcc = Some (tooManyStatements vaccAmount testAmount recAmount))
  /\ (forall dcc' err,
        validateStatementAmount dcc = Some err ->
        validateStatementAmount dcc' = Some err ->
        statementAmounts dcc' = (vaccAmount, testAmount, recAmount))
  /\ (total <> 1%nat -> validateDCC Parse dcc rules now <> None)
  /\ (forall err,
        validateStatementAmount dcc = Some err ->
        validateDateOfBirth (DateOfBirth dcc) = None ->
        validateName (Name dcc) = None ->
        validateDCC Parse dcc rules now = Some (WrapPrefix err "Invalid statement amount")).
Proof.
  intros vaccAmount testAmount recAmount total.
  assert (Hcases := validateStatementAmount_cases dcc).
  unfold totalAmount in Hcases. fold vaccAmount testAmount recAmount total in Hcases.
  assert (Hiff : validateStatementAmount dcc <> None <-> total <> 1%nat).
  { rewrite Hcases.
    destruct (total =? 0)%nat eqn:H0; [apply Nat.eqb_eq in H0 | apply Nat.eqb_neq in H0].
    { split; [lia | discriminate]. }
    destruct (1 <? total)%nat eqn:H1; [apply Nat.ltb_lt in H1 | apply Nat.ltb_ge in H1].
    { split; [lia | discriminate]. }
    split; [congruence | lia]. }
  split; [exact Hiff|]. split; [|split; [|split; [|split]]].
  - intros H0. rewrite Hcases, H0. reflexivity.
  - intros H1. rewrite Hcases.
    destruct (total =? 0)%nat eqn:H0; [apply Nat.eqb_eq in H0; lia|].
    apply Nat.ltb_lt in H1. now rewrite H1.
  - intros dcc' err H H'. apply (validateStatementAmount_names_amounts dcc dcc' err H H').
  - intros Htotal. apply Hiff in Htotal. unfold validateDCC.
    destruct (validateDateOfBirth (DateOfBirth dcc)); [discriminate|].
    destruct (validateName (Name dcc)); [discriminate|].
    destruct (validateStatementAmount dcc); [discriminate | congruence].
  - intros err Herr Hdob Hname. unfold validateDCC.
    rewrite Hdob, Hname, Herr. reflexivity.
Qed.

(** Two test statements that each pass the test rule, in one DCC. *)
Lemma statement_amount_rule_witness :
  validateTest Civil.Parse sampleTest sampleRules sampleNow = None
  /\ validateDCC Civil.Parse
       (Build_DCC "1990-05" sampleName [] [sampleTest; sampleTest] [])
       sampleRules sampleNow
     = Some (WrapPrefix (tooManyStatements 0 2 0) "Invalid statement amount").
Proof.
  split; [reflexivity|].
  apply (proj2 (proj2 (proj2 (proj2 (proj2
           (statement_amount_rule Civil.Parse
              (Build_DCC "1990-05" sampleName [] [sampleTest; sampleTest] [])
              sampleRules sampleNow))))));
    reflexivity.
Defined.

(** The details of the sample certificate: initials A and J, month 05 and,
    for the day that the date of birth leaves out, XX. *)
Lemma details_privacy_invariant_witness :
  buildVerificationDetails sampleHcert false = (Some sampleDetails, None)
  /\ FirstNameInitial sampleDetails = "A"
  /\ LastNameInitial sampleDetails = "J"
  /\ (String.length (FirstNameInitial sampleDetails) <= 1)%nat
  /\ (String.length (LastNameInitial sampleDetails) <= 1)%nat
  /\ (twoDigits (BirthMonth sampleDetails) = true \/ BirthMonth sampleDetails = DOB_EMPTY_VALUE)
  /\ (twoDigits (BirthDay sampleDetails) = true \/ BirthDay sampleDetails = DOB_EMPTY_VALUE)
  /\ BirthMonth sampleDetails <> ""
  /\ BirthDay sampleDetails <> "".
Proof.
  split; [reflexivity|].
  exact (details_privacy_invariant sampleHcert false sampleDetails eq_refl).
Defined.

(** * Further properties of the verifier *)

(** ** Sequencing *)

Lemma andThen_None (r k : option error) : r ;;; k = None <-> r = None /\ k = None.
Proof.
  destruct r, k; simpl; split; intros H; try discriminate H;
    try (destruct H; discriminate); auto.
Qed.

Lemma wrapping_None (prefix : string) (r : option error) :
  wrapping prefix r = None <-> r = None.
Proof. destruct r; simpl; split; congruence. Qed.

Lemma forRange_None {A : Type} (f : A -> option error) (prefix : string) (l : list A) :
  forRange f prefix l = None <-> Forall (fun x => f x = None) l.
Proof.
  induction l as [|x l IH]; simpl.
  - split; [constructor | reflexivity].
  - rewrite andThen_None, wrapping_None, IH. split.
    + intros [Hx Hl]. now constructor.
    + intros H. inversion H. auto.
Qed.

(** X1: [containsString] tells membership: it answers true exactly when the
    target is an element of the list, so in particular never for the empty
    list. *)
Theorem containsString_In (list : list string) (target : string) :
  containsString list target = true <-> In target list.
Proof.
  induction list as [|elem list IH]; simpl.
  - split; [discriminate | tauto].
  - destruct (String.eqb elem target) eqn:E.
    + apply String.eqb_eq in E. tauto.
    + apply String.eqb_neq in E. rewrite IH. split; [tauto|].
      intros [H|H]; [contradiction | exact H].
Qed.

(** ** The parts of the date of birth *)

(** The text put together again from its parts. *)
Definition joinDateOfBirth (year month day : string) : string :=
  year ++ (if String.eqb month "" then "" else "-" ++ month)
       ++ (if String.eqb day "" then "" else "-" ++ day).

Lemma parseDateOfBirth_parts_join (value year month day : string) :
  parseDateOfBirth value = (year, month, day, None) ->
  joinDateOfBirth year month day = value
  /\ (day <> "" -> month <> "")
  /\ (month <> "" -> year <> "").
Proof.
  rewrite parseDateOfBirth_parts.
  destruct (dobParts centuryYear value) as [[[y m] d]|] eqn:H; [|discriminate].
  intros [= -> -> ->].
  apply (dobParts_sound centuryYear) in H.
  destruct H as [(-> & -> & -> & ->) | [(-> & Hy & -> & ->)
                | [(-> & Hy & Hm & ->) | (-> & Hy & Hm & Hd)]]].
  all: try destruct (length4_inv _ (centuryYear_length _ Hy)) as (a & b & c & e & ->).
  all: try destruct (twoDigits_inv _ Hm) as (f & g & -> & _).
  all: try destruct (twoDigits_inv _ Hd) as (h & i & -> & _).
  all: split; [reflexivity|].
  all: split; intros H; try discriminate; exfalso; apply H; reflexivity.
Qed.

(** X2: what [parseDateOfBirth] accepts it cuts without loss: the input is
    the year, then a dash and the month when there is a month, then a dash
    and the day when there is a day; there is no day without a month and no
    month without a year; and the year is four digits, the month and the day
    two digits each when they are there. *)
Theorem parseDateOfBirth_round_trip (value year month day : string) :
  parseDateOfBirth value = (year, month, day, None) ->
  joinDateOfBirth year month day = value
  /\ (day <> "" -> month <> "")
  /\ (month <> "" -> year <> "")
  /\ (year = "" \/ fourDigitYear year = true)
  /\ (month = "" \/ twoDigits month = true)
  /\ (day = "" \/ twoDigits day = true).
Proof.
  intros Hparse.
  destruct (parseDateOfBirth_parts_join _ _ _ _ Hparse) as (Hjoin & Hday & Hmonth).
  destruct (parseDateOfBirth_month_day _ _ _ _ Hparse) as [Hm Hd].
  repeat split; auto.
  rewrite parseDateOfBirth_parts in Hparse.
  destruct (dobParts centuryYear value) as [[[y m] d]|] eqn:H; [|discriminate].
  injection Hparse as -> -> ->.
  apply (dobParts_sound centuryYear) in H.
  destruct H as [(_ & -> & _) | [(_ & Hy & _) | [(_ & Hy & _) | (_ & Hy & _)]]];
    auto using centuryYear_fourDigitYear.
Qed.

Lemma parseDateOfBirth_round_trip_witness :
  joinDateOfBirth "1990" "05" "" = "1990-05"
  /\ ("" <> "" -> "05" <> "")
  /\ ("05" <> "" -> "1990" <> "")
  /\ ("1990" = "" \/ fourDigitYear "1990" = true)
  /\ ("05" = "" \/ twoDigits "05" = true)
  /\ ("" = "" \/ twoDigits "" = true).
Proof.
  exact (parseDateOfBirth_round_trip "1990-05" "1990" "05" "" eq_refl).
Defined.

(** X3: the details never give a birth day without a birth month: when the
    month is the marker XX, so is the day. *)
Theorem details_no_day_without_month (hcert : HealthCertificate) (isSpecimen : bool)
    (details : VerificationDetails) :
  buildVerificationDetails hcert isSpecimen = (Some details, None) ->
  BirthMonth details = DOB_EMPTY_VALUE -> BirthDay details = DOB_EMPTY_VALUE.
Proof.
  rewrite buildVerificationDetails_eq.
  destruct (parseDateOfBirth _) as [[[y m] d] [e|]] eqn:Hparse; [discriminate|].
  intros [= <-]. cbn [BirthMonth BirthDay].
  destruct (parseDateOfBirth_parts_join _ _ _ _ Hparse) as (_ & Hday & _).
  destruct (parseDateOfBirth_month_day _ _ _ _ Hparse) as [[-> | Hm] _].
  - destruct (String.eqb d "") eqn:E; [reflexivity|].
    apply String.eqb_neq in E. now contradiction (Hday E).
  - destruct (twoDigits_inv m Hm) as (a & b & -> & Ha & _).
    cbn [String.eqb]. intros [= -> ->]. discriminate Ha.
Qed.

Lemma details_no_day_without_month_witness :
  buildVerificationDetails
    (Build_HealthCertificate "DE" 1622548800 1624968000
       (Build_DCC "1990" sampleName [] [sampleTest] []))
    false
  = (Some {| CredentialVersion := "1"; IsSpecimen := "0"; IssuerCountryCode := "";
             FirstNameInitial := "A"; LastNameInitial := "J";
             BirthDay := "XX"; BirthMonth := "XX" |}, None)
  /\ BirthDay {| CredentialVersion := "1"; IsSpecimen := "0"; IssuerCountryCode := "";
                 FirstNameInitial := "A"; LastNameInitial := "J";
                 BirthDay := "XX"; BirthMonth := "XX" |} = DOB_EMPTY_VALUE.
Proof.
  split; [reflexivity|].
  apply (details_no_day_without_month
           (Build_HealthCertificate "DE" 1622548800 1624968000
              (Build_DCC "1990" sampleName [] [sampleTest] []))
           false); reflexivity.
Defined.

(** ** The rules of the DCC together *)

Lemma validateName_ok_iff (name : DCCName) :
  validateName name = None <->
  StandardizedFamilyName name <> "" \/ StandardizedGivenName name <> "".
Proof.
  unfold validateName.
  destruct (String.eqb (StandardizedFamilyName name) "") eqn:Hf;
    [apply String.eqb_eq in Hf | apply String.eqb_neq in Hf];
    (destruct (String.eqb (StandardizedGivenName name) "") eqn:Hg;
     [apply String.eqb_eq in Hg | apply String.eqb_neq in Hg]); simpl.
  - split; [discriminate | intros [H|H]; contradiction].
  - split; auto.
  - split; auto.
  - split; auto.
Qed.

Lemma validateStatementAmount_ok_iff (dcc : DCC) :
  validateStatementAmount dcc = None <-> totalAmount dcc = 1%nat.
Proof.
  rewrite validateStatementAmount_cases.
  destruct (totalAmount dcc =? 0)%nat eqn:H0;
    [apply Nat.eqb_eq in H0 | apply Nat.eqb_neq in H0].
  { split; [discriminate | lia]. }
  destruct (1 <? totalAmount dcc)%nat eqn:H1;
    [apply Nat.ltb_lt in H1 | apply Nat.ltb_ge in H1].
  { split; [discriminate | lia]. }
  split; [lia | reflexivity].
Qed.

(** The one statement of a DCC, with the rule of its kind. *)
Definition singleStatementValid (Parse : string -> string -> option GoTime.Time)
    (dcc : DCC) (rules : europeanVerificationRules) (now : GoTime.Time) : Prop :=
  (exists vacc, Vaccinations dcc = [vacc] /\ Tests dcc = [] /\ Recoveries dcc = []
                /\ validateVaccination Parse vacc rules now = None)
  \/ (exists test, Vaccinations dcc = [] /\ Tests dcc = [test] /\ Recoveries dcc = []
                   /\ validateTest Parse test rules now = None)
  \/ (exists rec, Vaccinations dcc = [] /\ Tests dcc = [] /\ Recoveries dcc = [rec]
                  /\ validateRecovery Parse rec rules now = None).

(** X4: [validateDCC] accepts a DCC exactly when its date of birth has one
    of the accepted shapes, at least one of the two standardized names is
    not empty, and it holds one statement in all, which passes the rule of
    its kind. *)
Theorem validateDCC_accepts_iff
    (Parse : string -> string -> option GoTime.Time)
    (dcc : DCC) (rules : europeanVerificationRules) (now : GoTime.Time) :
  validateDCC Parse dcc rules now = None <->
  dobShape centuryYear (DateOfBirth dcc)
  /\ (StandardizedFamilyName (Name dcc) <> "" \/ StandardizedGivenName (Name dcc) <> "")
  /\ singleStatementValid Parse dcc rules now.
Proof.
  unfold validateDCC.
  rewrite !andThen_None, !wrapping_None, !forRange_None.
  rewrite validateDateOfBirth_ok_iff, parseDateOfBirth_ok_iff.
  rewrite validateName_ok_iff, validateStatementAmount_ok_iff.
  unfold singleStatementValid, totalAmount.
  split.
  - intros (Hdob & Hname & Hone & Hv & Ht & Hr).
    split; [exact Hdob|]. split; [exact Hname|].
    destruct (Vaccinations dcc) as [|v [|v' lv]], (Tests dcc) as [|t [|t' lt]],
      (Recoveries dcc) as [|r [|r' lr]]; simpl in Hone; try lia.
    + right. right. exists r. inversion Hr. auto.
    + right. left. exists t. inversion Ht. auto.
    + left. exists v. inversion Hv. auto.
  - intros (Hdob & Hname & [(v & -> & -> & -> & H) | [(t & -> & -> & -> & H)
                                                      | (r & -> & -> & -> & H)]]).
    all: repeat split; auto.
Qed.

(** X5: [validateDCC] reports the first rule that fails, and the date of
    birth comes first: a date of birth of no accepted shape gives the error of
    the regular expression, prefixed twice, whatever the name and the
    statements are; with an accepted date of birth, two empty standardized
    names give the error of the name, whatever the statements are. *)
Theorem validateDCC_first_error
    (Parse : string -> string -> option GoTime.Time)
    (dcc : DCC) (rules : europeanVerificationRules) (now : GoTime.Time) :
  (~ dobShape centuryYear (DateOfBirth dcc) ->
   validateDCC Parse dcc rules now
   = Some (WrapPrefix (WrapPrefix regexError "Invalid date of birth") "Invalid date of birth"))
  /\ (dobShape centuryYear (DateOfBirth dcc) ->
      StandardizedFamilyName (Name dcc) = "" -> StandardizedGivenName (Name dcc) = "" ->
      validateDCC Parse dcc rules now
      = Some (WrapPrefix
                (Errorf "Either the standardized family name or given name must be present" [])
                "Invalid name")).
Proof.
  unfold validateDCC. split.
  - intros Hshape. rewrite validateDateOfBirth_parse.
    destruct (parseDateOfBirth_total (DateOfBirth dcc)) as [(y & m & d & H) | H].
    + exfalso. apply Hshape, parseDateOfBirth_ok_iff. now rewrite H.
    + rewrite H. reflexivity.
  - intros Hshape Hf Hg.
    apply parseDateOfBirth_ok_iff, validateDateOfBirth_ok_iff in Hshape.
    rewrite Hshape. unfold validateName. rewrite Hf, Hg. reflexivity.
Qed.

Lemma validateDCC_first_error_witness :
  validateDCC Civil.Parse (hcert_DCC sampleNLHcert) sampleRules sampleNow
  = Some (WrapPrefix (WrapPrefix regexError "Invalid date of birth") "Invalid date of birth")
  /\ validateDCC Civil.Parse (Build_DCC "1990" (Build_DCCName "" "") [] [] [])
       sampleRules sampleNow
     = Some (WrapPrefix
               (Errorf "Either the standardized family name or given name must be present" [])
               "Invalid name").
Proof.
  split.
  - apply (proj1 (validateDCC_first_error Civil.Parse (hcert_DCC sampleNLHcert)
                    sampleRules sampleNow)).
    intros [H | [H | [(y & m & H & Hy & _) | (y & m & d & H & Hy & _)]]];
      try discriminate H.
    + destruct (length4_inv y (centuryYear_length y Hy)) as (a & b & c & e & ->).
      simpl in H. injection H as _ _ _ _ H. discriminate H.
    + destruct (length4_inv y (centuryYear_length y Hy)) as (a & b & c & e & ->).
      simpl in H. injection H as _ _ _ _ H. discriminate H.
  - apply (proj2 (validateDCC_first_error Civil.Parse
                    (Build_DCC "1990" (Build_DCCName "" "") [] [] [])
                    sampleRules sampleNow)); try reflexivity.
    right. left. reflexivity.
Defined.

(** ** The outcomes of [verifyEuropean] *)

Section Outcomes.

Variable Parse : string -> string -> option GoTime.Time.
Variable VerifyQREncoded : list Byte.byte -> HealthCertificate + error.

(** X6: [verifyEuropean] ends in one of three ways and never mixes them:
    with details (then no NL flag and no error), with the NL flag (then no
    details and no error), or with an error (then no details and no NL
    flag). *)
Theorem verifyEuropean_one_outcome (proofQREncoded : list Byte.byte)
    (rules : europeanVerificationRules) (now : GoTime.Time) :
  let '(details, isNLDCC, err) :=
    verifyEuropean Parse VerifyQREncoded proofQREncoded rules now in
  (details <> None /\ isNLDCC = false /\ err = None)
  \/ (details = None /\ isNLDCC = true /\ err = None)
  \/ (details = None /\ isNLDCC = false /\ err <> None).
Proof.
  unfold verifyEuropean.
  destruct (VerifyQREncoded proofQREncoded) as [hcert|err].
  2: { right. right. repeat split. discriminate. }
  destruct (String.eqb (Issuer hcert) NL_COUNTRY_CODE).
  { right. left. auto. }
  destruct (validateHcert hcert now) as [isSpecimen [err|]].
  { right. right. repeat split. discriminate. }
  destruct (validateDCC Parse (hcert_DCC hcert) rules now) eqn:Hdcc.
  { right. right. repeat split. discriminate. }
  apply validateDCC_dateOfBirth in Hdcc.
  destruct (buildVerificationDetails_ok hcert isSpecimen Hdcc) as [d ->].
  left. repeat split. discriminate.
Qed.

(** X7: the errors of [verifyEuropean] in the order of its steps: an error
    of the external verifier is returned as it is; for a certificate of
    another issuer than NL, an error of the metadata is returned under the
    prefix of the health certificate, before the DCC is looked at; and an
    error of the DCC under the prefix of the DCC. *)
Theorem verifyEuropean_errors (proofQREncoded : list Byte.byte)
    (rules : europeanVerificationRules) (now : GoTime.Time) :
  (forall err, VerifyQREncoded proofQREncoded = inr err ->
     verifyEuropean Parse VerifyQREncoded proofQREncoded rules now = (None, false, Some err))
  /\ (forall hcert err, VerifyQREncoded proofQREncoded = inl hcert ->
        Issuer hcert <> NL_COUNTRY_CODE ->
        snd (validateHcert hcert now) = Some err ->
        verifyEuropean Parse VerifyQREncoded proofQREncoded rules now
        = (None, false, Some (WrapPrefix err "Could not validate health certificate")))
  /\ (forall hcert err, VerifyQREncoded proofQREncoded = inl hcert ->
        Issuer hcert <> NL_COUNTRY_CODE ->
        snd (validateHcert hcert now) = None ->
        validateDCC Parse (hcert_DCC hcert) rules now = Some err ->
        verifyEuropean Parse VerifyQREncoded proofQREncoded rules now
        = (None, false, Some (WrapPrefix err "Could not validate DCC"))).
Proof.
  unfold verifyEuropean. repeat split.
  - intros err ->. reflexivity.
  - intros hcert err -> Hissuer Herr. apply String.eqb_neq in Hissuer. rewrite Hissuer.
    destruct (validateHcert hcert now) as [b e]. simpl in Herr. now subst e.
  - intros hcert err -> Hissuer Hmeta Herr. apply String.eqb_neq in Hissuer.
    rewrite Hissuer. destruct (validateHcert hcert now) as [b e]. simpl in Hmeta. subst e.
    now rewrite Herr.
Qed.

(** X8: [verifyEuropean] returns details exactly for a payload that the
    external verifier decodes to a certificate of another issuer than NL
    whose metadata and DCC are both accepted; the details are those built
    from the certificate: credential version 1, no issuer country code, and
    the specimen mark 1 exactly when the expiration time is the reserved
    value 42. *)
Theorem verifyEuropean_details_iff (proofQREncoded : list Byte.byte)
    (rules : europeanVerificationRules) (now : GoTime.Time) (details : VerificationDetails) :
  verifyEuropean Parse VerifyQREncoded proofQREncoded rules now = (Some details, false, None)
  <-> exists hcert,
        VerifyQREncoded proofQREncoded = inl hcert
        /\ Issuer hcert <> NL_COUNTRY_CODE
        /\ snd (validateHcert hcert now) = None
        /\ validateDCC Parse (hcert_DCC hcert) rules now = None
        /\ buildVerificationDetails hcert
             (ExpirationTime hcert =? HCERT_SPECIMEN_EXPIRATION_TIME) = (Some details, None)
        /\ CredentialVersion details = "1"
        /\ IssuerCountryCode details = ""
        /\ (IsSpecimen details = "1" <->
            ExpirationTime hcert = HCERT_SPECIMEN_EXPIRATION_TIME)
        /\ (IsSpecimen details = "0" <->
            ExpirationTime hcert <> HCERT_SPECIMEN_EXPIRATION_TIME).
Proof.
  assert (Hflag : forall hcert, fst (validateHcert hcert now) = true ->
            (ExpirationTime hcert =? HCERT_SPECIMEN_EXPIRATION_TIME) = true).
  { intros hcert. unfold validateHcert.
    destruct (ExpirationTime hcert =? HCERT_SPECIMEN_EXPIRATION_TIME); [reflexivity|].
    cbv zeta. repeat (destruct (GoTime.Before _ _)); discriminate. }
  assert (Hflag' : forall hcert, fst (validateHcert hcert now) = false ->
            snd (validateHcert hcert now) = None ->
            (ExpirationTime hcert =? HCERT_SPECIMEN_EXPIRATION_TIME) = false).
  { intros hcert. unfold validateHcert.
    destruct (ExpirationTime hcert =? HCERT_SPECIMEN_EXPIRATION_TIME); [discriminate|].
    reflexivity. }
  unfold verifyEuropean. split.
  - destruct (VerifyQREncoded proofQREncoded) as [hcert|err]; [|discriminate].
    destruct (String.eqb (Issuer hcert) NL_COUNTRY_CODE) eqn:Hissuer; [discriminate|].
    apply String.eqb_neq in Hissuer.
    destruct (validateHcert hcert now) as [isSpecimen [err|]] eqn:Hmeta; [discriminate|].
    destruct (validateDCC Parse (hcert_DCC hcert) rules now) eqn:Hdcc; [discriminate|].
    destruct (buildVerificationDetails hcert isSpecimen) as [d [e|]] eqn:Hbuild;
      [discriminate|].
    intros [= ->]. exists hcert.
    assert (Hspec : (ExpirationTime hcert =? HCERT_SPECIMEN_EXPIRATION_TIME) = isSpecimen).
    { destruct isSpecimen.
      - apply Hflag. now rewrite Hmeta.
      - apply Hflag'; now rewrite Hmeta. }
    rewrite Hspec.
    split; [reflexivity|]. split; [exact Hissuer|]. split; [now rewrite Hmeta|].
    split; [exact Hdcc|]. split; [exact Hbuild|].
    rewrite buildVerificationDetails_eq in Hbuild.
    destruct (parseDateOfBirth _) as [[[y m] d'] [e|]]; [discriminate|].
    injection Hbuild as <-. cbn [CredentialVersion IssuerCountryCode IsSpecimen].
    rewrite <- Hspec.
    destruct (ExpirationTime hcert =? HCERT_SPECIMEN_EXPIRATION_TIME) eqn:E;
      [apply Z.eqb_eq in E | apply Z.eqb_neq in E].
    + repeat split; auto; try discriminate. intros H. contradiction.
    + repeat split; auto; try discriminate. intros H. contradiction.
  - intros (hcert & -> & Hissuer & Hmeta & Hdcc & Hbuild & _).
    apply String.eqb_neq in Hissuer. rewrite Hissuer.
    destruct (validateHcert hcert now) as [isSpecimen e] eqn:Hv. simpl in Hmeta. subst e.
    rewrite Hdcc.
    assert (Hspec : (ExpirationTime hcert =? HCERT_SPECIMEN_EXPIRATION_TIME) = isSpecimen).
    { destruct isSpecimen.
      - apply Hflag. now rewrite Hv.
      - apply Hflag'; now rewrite Hv. }
    rewrite <- Hspec, Hbuild. reflexivity.
Qed.

End Outcomes.

Lemma verifyEuropean_errors_witness :
  verifyEuropean Civil.Parse sampleVerifier [] sampleRules sampleNow
  = (None, false, Some (Errorf "Could not decode" []))
  /\ verifyEuropean Civil.Parse sampleVerifier [Byte.x01] sampleRules (GoTime.Unix 0 0)
     = (None, false,
        Some (WrapPrefix (Errorf "Is issued before the current time" [])
                "Could not validate health certificate")).
Proof.
  split.
  - apply (proj1 (verifyEuropean_errors Civil.Parse sampleVerifier [] sampleRules sampleNow)).
    reflexivity.
  - apply (proj1 (proj2 (verifyEuropean_errors Civil.Parse sampleVerifier [Byte.x01]
                           sampleRules (GoTime.Unix 0 0))) sampleHcert);
      [reflexivity | discriminate | reflexivity].
Defined.

(** ** Rounding down to the day *)

Definition Day : GoTime.Duration := 24 * GoTime.Hour.

Lemma Truncate_multiple (t : GoTime.Time) (d : GoTime.Duration) :
  0 < d -> GoTime.Truncate t d = d * (t / d).
Proof.
  intros Hd. unfold GoTime.Truncate, GoTime.Add.
  destruct (d <=? 0) eqn:E; [apply Z.leb_le in E; lia|].
  pose proof (Z.div_mod t d). lia.
Qed.

Lemma Truncate_mono (t t' : GoTime.Time) (d : GoTime.Duration) :
  0 < d -> t <= t' -> GoTime.Truncate t d <= GoTime.Truncate t' d.
Proof.
  intros Hd Hle. rewrite !Truncate_multiple by assumption.
  apply Z.mul_le_mono_nonneg_l; [lia|]. now apply Z.div_le_mono.
Qed.

(** A multiple of [d] is reached by the rounded time as soon as by the time. *)
Lemma Truncate_reaches (t x : GoTime.Time) (d : GoTime.Duration) :
  0 < d -> x mod d = 0 -> (x <= GoTime.Truncate t d <-> x <= t).
Proof.
  intros Hd Hx. rewrite Truncate_multiple by assumption.
  pose proof (Z.mul_div_le t d Hd) as Hdown.
  split; [lia|]. intros Hle.
  rewrite (Z.div_mod x d) by lia. rewrite Hx, Z.add_0_r.
  apply Z.mul_le_mono_nonneg_l; [lia|]. now apply Z.div_le_mono.
Qed.

(** ** The vaccination statement in full *)

Lemma validateVaccination_accepts
    (Parse : string -> string -> option GoTime.Time)
    (vacc : DCCVaccination) (rules : europeanVerificationRules) (now : GoTime.Time) :
  validateVaccination Parse vacc rules now = None <->
  vacc_DiseaseTargeted vacc = DISEASE_TARGETED_COVID_19
  /\ containsString (VaccineAllowedProducts rules) (MedicinalProduct vacc) = true
  /\ TotalSeriesOfDoses vacc <= DoseNumber vacc
  /\ exists dov,
       Parse YYYYMMDD_FORMAT (DateOfVaccination vacc) = Some dov
       /\ GoTime.Add dov (daysDuration (VaccinationValidityDelayDays rules))
          <= GoTime.Truncate now Day.
Proof.
  unfold validateVaccination, GoTime.UTC. fold Day.
  destruct (String.eqb (vacc_DiseaseTargeted vacc) DISEASE_TARGETED_COVID_19) eqn:Hdisease;
    [apply String.eqb_eq in Hdisease | apply String.eqb_neq in Hdisease]; cbn [negb].
  2: { split; [discriminate | tauto]. }
  destruct (containsString (VaccineAllowedProducts rules) (MedicinalProduct vacc));
    cbn [negb].
  2: { split; [discriminate | intros (_ & H & _); discriminate H]. }
  destruct (DoseNumber vacc <? TotalSeriesOfDoses vacc) eqn:Hdose;
    [apply Z.ltb_lt in Hdose | apply Z.ltb_ge in Hdose].
  { split; [discriminate | lia]. }
  destruct (Parse YYYYMMDD_FORMAT (DateOfVaccination vacc)) as [dov|].
  2: { split; [discriminate | intros (_ & _ & _ & dov & H & _); discriminate H]. }
  cbv zeta.
  destruct (GoTime.Before _ _) eqn:Hbefore;
    [apply Before_lt in Hbefore | apply Before_ge in Hbefore].
  - split; [discriminate|]. intros (_ & _ & _ & dov' & [= <-] & H). lia.
  - split; [|reflexivity]. intros _. repeat split; auto. exists dov. auto.
Qed.

(** X9: a vaccination does not expire: a statement that [validateVaccination]
    accepts at some time is accepted at every later time. *)
Theorem vaccination_stays_valid
    (Parse : string -> string -> option GoTime.Time)
    (vacc : DCCVaccination) (rules : europeanVerificationRules) (now later : GoTime.Time) :
  validateVaccination Parse vacc rules now = None ->
  now <= later ->
  validateVaccination Parse vacc rules later = None.
Proof.
  rewrite !validateVaccination_accepts.
  intros (Hdisease & Hproduct & Hdose & dov & Hparse & Hfrom) Hlater.
  repeat split; auto. exists dov. split; [exact Hparse|].
  assert (0 < Day) by reflexivity.
  pose proof (Truncate_mono now later Day H Hlater). lia.
Qed.

Lemma vaccination_stays_valid_witness :
  validateVaccination Civil.Parse sampleVaccination sampleRules
    (GoTime.Unix 1700000000 0) = None.
Proof.
  apply (vaccination_stays_valid Civil.Parse sampleVaccination sampleRules sampleNow).
  - reflexivity.
  - vm_compute. discriminate.
Defined.

(** X10: for a vaccination statement that passes the disease, product and
    dose rules, whose date parses to a midnight UTC, under a delay of at most
    106751 days either way, [validateVaccination] accepts exactly from the
    midnight that lies the delay after the date: earlier the same day counts
    as not yet valid, since now is rounded down to its day. *)
Theorem vaccination_valid_from_midnight
    (Parse : string -> string -> option GoTime.Time)
    (vacc : DCCVaccination) (rules : europeanVerificationRules) (now dov : GoTime.Time) :
  vacc_DiseaseTargeted vacc = DISEASE_TARGETED_COVID_19 ->
  containsString (VaccineAllowedProducts rules) (MedicinalProduct vacc) = true ->
  TotalSeriesOfDoses vacc <= DoseNumber vacc ->
  Parse YYYYMMDD_FORMAT (DateOfVaccination vacc) = Some dov ->
  dov mod Day = 0 ->
  -106751 <= VaccinationValidityDelayDays rules <= 106751 ->
  (validateVaccination Parse vacc rules now = None <->
   dov + VaccinationValidityDelayDays rules * Day <= now)
  /\ (validateVaccination Parse vacc rules now
      = Some (Errorf "Date of vaccination is before the delayed validity date" []) <->
      now < dov + VaccinationValidityDelayDays rules * Day).
Proof.
  intros Hdisease Hproduct Hdose Hparse Hmidnight Hdelay.
  assert (Hday : 0 < Day) by reflexivity.
  assert (Hfrom : GoTime.Add dov (daysDuration (VaccinationValidityDelayDays rules))
                  = dov + VaccinationValidityDelayDays rules * Day).
  { unfold GoTime.Add. now rewrite daysDuration_exact. }
  assert (Hmult : (dov + VaccinationValidityDelayDays rules * Day) mod Day = 0).
  { rewrite Z.mod_add by lia. exact Hmidnight. }
  pose proof (Truncate_reaches now _ Day Hday Hmult) as Hreach.
  split.
  - rewrite validateVaccination_accepts. split.
    + intros (_ & _ & _ & dov' & Hp & H). rewrite Hparse in Hp. injection Hp as <-.
      rewrite Hfrom in H. now apply Hreach.
    + intros H. repeat split; auto. exists dov. split; [exact Hparse|].
      rewrite Hfrom. now apply Hreach.
  - apply String.eqb_eq in Hdisease. apply Z.ltb_ge in Hdose.
    unfold validateVaccination, GoTime.UTC. fold Day.
    rewrite Hdisease, Hproduct, Hdose, Hparse. cbn [negb]. cbv zeta. rewrite Hfrom.
    destruct (GoTime.Before _ _) eqn:Hbefore;
      [apply Before_lt in Hbefore | apply Before_ge in Hbefore].
    + split; [lia | reflexivity].
    + split; [discriminate | lia].
Qed.

(** The sample vaccination of 2021-05-01 under a delay of 14 days: not yet
    accepted one nanosecond before 2021-05-15 00:00 UTC. *)
Lemma vaccination_valid_from_midnight_witness :
  validateVaccination Civil.Parse sampleVaccination sampleRules
    (GoTime.Unix 1621036800 0 - 1)
  = Some (Errorf "Date of vaccination is before the delayed validity date" [])
  /\ validateVaccination Civil.Parse sampleVaccination sampleRules
       (GoTime.Unix 1621036800 0) = None.
Proof.
  pose proof (vaccination_valid_from_midnight Civil.Parse sampleVaccination sampleRules)
    as H.
  split.
  - apply (H (GoTime.Unix 1621036800 0 - 1) (GoTime.Unix 1619827200 0));
      try reflexivity; vm_compute; try split; discriminate.
  - apply (H (GoTime.Unix 1621036800 0) (GoTime.Unix 1619827200 0));
      try reflexivity; vm_compute; try split; discriminate.
Defined.

(** ** The recovery and test statements in full *)

(** X11: [validateRecovery] accepts exactly the times that lie in the window
    of the policy and in the window of the certificate: the disease code is
    COVID-19, the date of first positive test parses, now is between that
    date plus the valid-from days and that date plus the valid-until days,
    not before a valid-from of the certificate that parses and not after a
    valid-until of the certificate that parses.  A bound of the certificate
    that does not parse is ignored. *)
Theorem recovery_accepts_both_windows
    (Parse : string -> string -> option GoTime.Time)
    (rec : DCCRecovery) (rules : europeanVerificationRules) (now : GoTime.Time) :
  validateRecovery Parse rec rules now = None <->
  rec_DiseaseTargeted rec = DISEASE_TARGETED_COVID_19
  /\ exists testDate,
       Parse YYYYMMDD_FORMAT (DateOfFirstPositiveTest rec) = Some testDate
       /\ GoTime.Add testDate (daysDuration (RecoveryValidFromDays rules)) <= now
       /\ now <= GoTime.Add testDate (daysDuration (RecoveryValidUntilDays rules))
       /\ (forall from, Parse YYYYMMDD_FORMAT (CertificateValidFrom rec) = Some from ->
             from <= now)
       /\ (forall until, Parse YYYYMMDD_FORMAT (CertificateValidUntil rec) = Some until ->
             now <= until).
Proof.
  unfold validateRecovery.
  destruct (String.eqb (rec_DiseaseTargeted rec) DISEASE_TARGETED_COVID_19) eqn:Hdisease;
    [apply String.eqb_eq in Hdisease | apply String.eqb_neq in Hdisease]; cbn [negb].
  2: { split; [discriminate | tauto]. }
  destruct (Parse YYYYMMDD_FORMAT (DateOfFirstPositiveTest rec)) as [testDate|].
  2: { split; [discriminate | intros (_ & t & H & _); discriminate H]. }
  cbv zeta.
  rewrite (later_start (GoTime.Add testDate (daysDuration (RecoveryValidFromDays rules)))).
  rewrite (earlier_end (GoTime.Add testDate (daysDuration (RecoveryValidUntilDays rules)))).
  set (policyFrom := GoTime.Add testDate (daysDuration (RecoveryValidFromDays rules))).
  set (policyUntil := GoTime.Add testDate (daysDuration (RecoveryValidUntilDays rules))).
  destruct (Parse YYYYMMDD_FORMAT (CertificateValidFrom rec)) as [from|];
    destruct (Parse YYYYMMDD_FORMAT (CertificateValidUntil rec)) as [until|].
  all: repeat match goal with
       | |- context [GoTime.Before ?a ?b] =>
           let E := fresh "E" in
           destruct (GoTime.Before a b) eqn:E;
           [apply Before_lt in E | apply Before_ge in E]
       end.
  all: split;
    [ first [ discriminate
            | intros _; split; [exact Hdisease|];
              exists testDate; split; [reflexivity|];
              repeat split; try lia; intros x [= <-]; lia ]
    | intros (_ & t & [= <-] & Hf & Hu & Hcf & Hcu);
      first [ reflexivity
            | exfalso; try (specialize (Hcf _ eq_refl));
              try (specialize (Hcu _ eq_refl)); lia ] ].
Qed.

(** X12: [validateTest] accepts only a statement with the COVID-19 disease
    code, an allowed type, the not-detected result and a collection time
    that parses, and then exactly from the collection time to the collection
    time plus the validity duration, both included; every other statement is
    rejected at every time. *)
Theorem validateTest_accepts_iff
    (Parse : string -> string -> option GoTime.Time)
    (test : DCCTest) (rules : europeanVerificationRules) (now : GoTime.Time) :
  validateTest Parse test rules now = None <->
  test_DiseaseTargeted test = DISEASE_TARGETED_COVID_19
  /\ containsString (TestAllowedTypes rules) (TypeOfTest test) = true
  /\ TestResult test = TEST_RESULT_NOT_DETECTED
  /\ exists doc,
       Parse RFC3339 (DateTimeOfCollection test) = Some doc
       /\ doc <= now <= GoTime.Add doc (GoTime.Hours (TestValidityHours rules)).
Proof.
  unfold validateTest.
  destruct (String.eqb (test_DiseaseTargeted test) DISEASE_TARGETED_COVID_19) eqn:Hdisease;
    [apply String.eqb_eq in Hdisease | apply String.eqb_neq in Hdisease]; cbn [negb].
  2: { split; [discriminate | tauto]. }
  destruct (containsString (TestAllowedTypes rules) (TypeOfTest test)); cbn [negb].
  2: { split; [discriminate | intros (_ & H & _); discriminate H]. }
  destruct (String.eqb (TestResult test) TEST_RESULT_NOT_DETECTED) eqn:Hresult;
    [apply String.eqb_eq in Hresult | apply String.eqb_neq in Hresult]; cbn [negb].
  2: { split; [discriminate | tauto]. }
  destruct (Parse RFC3339 (DateTimeOfCollection test)) as [doc|].
  2: { split; [discriminate | intros (_ & _ & _ & d & H & _); discriminate H]. }
  cbv zeta.
  destruct (GoTime.Before _ now) eqn:Hend;
    [apply Before_lt in Hend | apply Before_ge in Hend].
  { split; [discriminate | intros (_ & _ & _ & d & [= <-] & H); lia]. }
  destruct (GoTime.Before now doc) eqn:Hstart;
    [apply Before_lt in Hstart | apply Before_ge in Hstart].
  { split; [discriminate | intros (_ & _ & _ & d & [= <-] & H); lia]. }
  split; [|reflexivity]. intros _. repeat split; auto. exists doc. auto.
Qed.

(** * The helpers of the domestic test (domestic_test.go)

    A Go [map[string]string] is a finite map from texts to texts. *)

From stdpp Require Import gmap strings.

(** [errors.New(e)] for a text [e]: the error of the format [%v] and [e]. *)
Definition New (e : string) : error := Errorf "%v" [ArgString e].

(** [attributes[key]]: the empty text for a key that is not there. *)
Definition attributeOf (attributes : gmap string string) (key : string) : string :=
  default "" (attributes !! key).

Definition attributesToVerificationDetails (attributes : gmap string string)
    : VerificationDetails :=
  {| CredentialVersion := "2";
     IsSpecimen := attributeOf attributes "isSpecimen";
     IssuerCountryCode := "NL";
     FirstNameInitial := attributeOf attributes "firstNameInitial";
     LastNameInitial := attributeOf attributes "lastNameInitial";
     BirthDay := attributeOf attributes "birthDay";
     BirthMonth := attributeOf attributes "birthMonth" |}.

(** [for k, v := range attributes { ... }] over the entries in the order in
    which Go happens to deliver them. *)
Fixpoint rangeAttributes (entries : list (string * string))
    (decodedAttributes : gmap string string) : option error :=
  match entries with
  | [] => None
  | (k, v) :: entries' =>
      match decodedAttributes !! k with
      | Some vv =>
          if negb (String.eqb v vv) then Some (New "Decoded attributes mismatch")
          else rangeAttributes entries' decodedAttributes
      | None => Some (New "Decoded attributes mismatch")
      end
  end.

Definition areAttributesEqualWithCredentialVersion
    (attributes decodedAttributes : gmap string string) : option error :=
  if negb (size attributes + 1 =? size decodedAttributes)%nat then
    Some (New "Decoded attributes amount (with credential version) mismatch")
  else
    match decodedAttributes !! "credentialVersion" with
    | Some versionAttr =>
        if negb (String.eqb versionAttr "2") then
          Some (Errorf "Decoded credential version attribute isn't as expected" [])
        else rangeAttributes (map_to_list attributes) decodedAttributes
    | None => Some (Errorf "Decoded credential version attribute isn't as expected" [])
    end.

(** The attributes of the credentials of the test, but for the time. *)
Definition sampleAttributes : gmap string string :=
  list_to_map
    [("isSpecimen", "0"); ("isPaperProof", "0"); ("validFrom", "1622577600");
     ("validForHours", "40"); ("firstNameInitial", "A"); ("lastNameInitial", "R");
     ("birthDay", "20"); ("birthMonth", "10")].

Lemma rangeAttributes_None (entries : list (string * string)) (dec : gmap string string) :
  rangeAttributes entries dec = None <->
  Forall (fun kv => dec !! kv.1 = Some kv.2) entries.
Proof.
  induction entries as [|[k v] entries IH]; simpl.
  - split; [constructor | reflexivity].
  - destruct (dec !! k) as [vv|] eqn:Hk.
    + destruct (String.eqb v vv) eqn:E; simpl.
      * apply String.eqb_eq in E. subst vv. rewrite IH. split.
        -- intros H. constructor; [exact Hk | exact H].
        -- intros H. inversion H. assumption.
      * apply String.eqb_neq in E. split; [discriminate|].
        intros H. inversion H as [|? ? Hh _]. simpl in Hh. congruence.
    + split; [discriminate|]. intros H. inversion H as [|? ? Hh _]. simpl in Hh. congruence.
Qed.

Lemma rangeAttributes_subseteq (attributes dec : gmap string string) :
  rangeAttributes (map_to_list attributes) dec = None <-> attributes ⊆ dec.
Proof.
  rewrite rangeAttributes_None, map_subseteq_spec, Forall_forall. split.
  - intros H i x Hi. apply (H (i, x)). now apply elem_of_map_to_list.
  - intros H [i x] Hin. apply H. now apply elem_of_map_to_list.
Qed.

Lemma areAttributesEqual_None (attributes dec : gmap string string) :
  areAttributesEqualWithCredentialVersion attributes dec = None <->
  size dec = S (size attributes)
  /\ dec !! "credentialVersion" = Some "2"
  /\ attributes ⊆ dec.
Proof.
  unfold areAttributesEqualWithCredentialVersion.
  destruct (size attributes + 1 =? size dec)%nat eqn:Hsize;
    [apply Nat.eqb_eq in Hsize | apply Nat.eqb_neq in Hsize]; simpl.
  2: { split; [discriminate | intros (H & _); lia]. }
  destruct (dec !! "credentialVersion") as [v|] eqn:Hv.
  2: { split; [discriminate | intros (_ & H & _); discriminate H]. }
  destruct (String.eqb v "2") eqn:E;
    [apply String.eqb_eq in E; subst v | apply String.eqb_neq in E]; simpl.
  - rewrite rangeAttributes_subseteq. split; [intros H; repeat split; auto; lia | tauto].
  - split; [discriminate | intros (_ & [= H] & _); contradiction].
Qed.

(** X13: for attributes that hold no credential version themselves,
    [areAttributesEqualWithCredentialVersion] returns no error exactly when
    the decoded attributes are the attributes with the credential version 2
    added: nothing else added, nothing missing, nothing changed. *)
Theorem attributes_equal_iff_version_added (attributes dec : gmap string string) :
  attributes !! "credentialVersion" = None ->
  (areAttributesEqualWithCredentialVersion attributes dec = None <->
   dec = <["credentialVersion" := "2"]> attributes).
Proof.
  intros Hfresh. rewrite areAttributesEqual_None. split.
  - intros (Hsize & Hversion & Hsub). symmetry. apply map_subseteq_size_eq.
    + apply insert_subseteq_l; assumption.
    + rewrite map_size_insert_None by assumption. lia.
  - intros ->. split; [|split].
    + now apply map_size_insert_None.
    + apply lookup_insert_eq.
    + now apply insert_subseteq.
Qed.

Lemma attributes_equal_iff_version_added_witness :
  areAttributesEqualWithCredentialVersion sampleAttributes
    (<["credentialVersion" := "2"]> sampleAttributes) = None.
Proof.
  apply (attributes_equal_iff_version_added sampleAttributes); reflexivity.
Defined.

(** X14: the order in which the attributes are ranged over does not matter:
    two orders of the same entries give the same result, the same error
    included. *)
Theorem range_order_irrelevant (entries entries' : list (string * string))
    (dec : gmap string string) :
  entries ≡ₚ entries' ->
  rangeAttributes entries dec = rangeAttributes entries' dec.
Proof.
  intros Hperm.
  assert (Hval : forall l, rangeAttributes l dec = None
                           \/ rangeAttributes l dec = Some (New "Decoded attributes mismatch")).
  { induction l as [|[k v] l IH]; simpl; [now left|].
    destruct (dec !! k); [|now right]. destruct (negb _); [now right | exact IH]. }
  destruct (rangeAttributes entries dec) eqn:H1, (rangeAttributes entries' dec) eqn:H2.
  - destruct (Hval entries), (Hval entries'); congruence.
  - apply rangeAttributes_None in H2. rewrite <- Hperm in H2.
    apply rangeAttributes_None in H2. congruence.
  - apply rangeAttributes_None in H1. rewrite Hperm in H1.
    apply rangeAttributes_None in H1. congruence.
  - reflexivity.
Qed.

Lemma range_order_irrelevant_witness :
  rangeAttributes [("birthDay", "20"); ("birthMonth", "11")] sampleAttributes
  = rangeAttributes [("birthMonth", "11"); ("birthDay", "20")] sampleAttributes.
Proof.
  apply (range_order_irrelevant [("birthDay", "20"); ("birthMonth", "11")]
           [("birthMonth", "11"); ("birthDay", "20")]).
  apply perm_swap.
Defined.

(** X15: when [areAttributesEqualWithCredentialVersion] finds no error, for
    attributes that hold no credential version themselves, the decoded
    attributes lead to the same verification details as the attributes. *)
Theorem equal_attributes_same_details (attributes dec : gmap string string) :
  attributes !! "credentialVersion" = None ->
  areAttributesEqualWithCredentialVersion attributes dec = None ->
  attributesToVerificationDetails dec = attributesToVerificationDetails attributes.
Proof.
  intros Hfresh Hequal. apply areAttributesEqual_None in Hequal.
  destruct Hequal as (Hsize & Hversion & Hsub).
  assert (Hdec : dec = <["credentialVersion" := "2"]> attributes).
  { symmetry. apply map_subseteq_size_eq.
    - apply insert_subseteq_l; assumption.
    - rewrite map_size_insert_None by assumption. lia. }
  subst dec. unfold attributesToVerificationDetails, attributeOf.
  rewrite !lookup_insert_ne by discriminate. reflexivity.
Qed.

Lemma equal_attributes_same_details_witness :
  attributesToVerificationDetails (<["credentialVersion" := "2"]> sampleAttributes)
  = attributesToVerificationDetails sampleAttributes.
Proof.
  apply (equal_attributes_same_details sampleAttributes); reflexivity.
Defined.

(** X16: the condition on the attributes in X13 is needed: attributes that
    hold the credential version 2 themselves are found equal to themselves
    with any one further attribute added, whatever its key and value. *)
Theorem attributes_with_version_accept_any_extra
    (attributes : gmap string string) (key value : string) :
  attributes !! "credentialVersion" = Some "2" ->
  attributes !! key = None ->
  areAttributesEqualWithCredentialVersion attributes (<[key := value]> attributes) = None.
Proof.
  intros Hversion Hfresh. apply areAttributesEqual_None. split; [|split].
  - now apply map_size_insert_None.
  - rewrite lookup_insert_ne; [exact Hversion | congruence].
  - now apply insert_subseteq.
Qed.

Lemma attributes_with_version_accept_any_extra_witness :
  areAttributesEqualWithCredentialVersion
    (<["credentialVersion" := "2"]> sampleAttributes)
    (<["isSpecimen2" := "1"]> (<["credentialVersion" := "2"]> sampleAttributes)) = None.
Proof.
  apply (attributes_with_version_accept_any_extra
           (<["credentialVersion" := "2"]> sampleAttributes)); reflexivity.
Defined.

(** * More on the details and on the errors of the DCC *)

(** X17: [buildVerificationDetails] returns either details and no error or
    no details and an error, the error exactly when the date of birth has
    none of the accepted shapes; the error is that of the regular expression
    under the prefix of the parsing. *)
Theorem buildVerificationDetails_error_iff (hcert : HealthCertificate) (isSpecimen : bool) :
  (dobShape centuryYear (DateOfBirth (hcert_DCC hcert)) <->
   exists details, buildVerificationDetails hcert isSpecimen = (Some details, None))
  /\ (~ dobShape centuryYear (DateOfBirth (hcert_DCC hcert)) <->
      buildVerificationDetails hcert isSpecimen
      = (None, Some (WrapPrefix regexError "Could not parse date of birth"))).
Proof.
  rewrite <- parseDateOfBirth_ok_iff, buildVerificationDetails_eq.
  destruct (parseDateOfBirth_total (DateOfBirth (hcert_DCC hcert)))
    as [(y & m & d & H) | H]; rewrite H; simpl.
  - split; split.
    + intros _. eexists. reflexivity.
    + reflexivity.
    + intros Hn. now contradiction Hn.
    + discriminate.
  - split; split.
    + discriminate.
    + intros [details Hd]. discriminate Hd.
    + reflexivity.
    + intros _. discriminate.
Qed.

(** X18: the details carry nothing of a certificate but the first characters
    of the two standardized names, the month and the day of the date of birth
    and the specimen mark: two certificates that agree on these lead to the
    same details, whatever their years of birth, the rest of the names, their
    statements, issuers and times are. *)
Theorem details_depend_only_on_initials_and_birthday
    (hcert hcert' : HealthCertificate) (isSpecimen : bool) (year year' month day : string) :
  parseDateOfBirth (DateOfBirth (hcert_DCC hcert)) = (year, month, day, None) ->
  parseDateOfBirth (DateOfBirth (hcert_DCC hcert')) = (year', month, day, None) ->
  firstChar (StandardizedGivenName (Name (hcert_DCC hcert)))
  = firstChar (StandardizedGivenName (Name (hcert_DCC hcert'))) ->
  firstChar (StandardizedFamilyName (Name (hcert_DCC hcert)))
  = firstChar (StandardizedFamilyName (Name (hcert_DCC hcert'))) ->
  buildVerificationDetails hcert isSpecimen = buildVerificationDetails hcert' isSpecimen.
Proof.
  intros Hparse Hparse' Hgiven Hfamily.
  rewrite !buildVerificationDetails_eq, Hparse, Hparse', Hgiven, Hfamily. reflexivity.
Qed.

Lemma details_depend_only_on_initials_and_birthday_witness :
  buildVerificationDetails sampleHcert false
  = buildVerificationDetails
      (Build_HealthCertificate "FR" 0 42
         (Build_DCC "2001-05" (Build_DCCName "JONES" "ALBERT") [sampleVaccination] [] []))
      false.
Proof.
  apply (details_depend_only_on_initials_and_birthday sampleHcert
           (Build_HealthCertificate "FR" 0 42
              (Build_DCC "2001-05" (Build_DCCName "JONES" "ALBERT") [sampleVaccination] [] []))
           false "1990" "2001" "05" ""); reflexivity.
Defined.

(** X19: for a DCC with an accepted date of birth, a name and one statement
    in all, the error of [validateDCC] is the error of the rule of that
    statement under the prefix of its kind. *)
Theorem validateDCC_statement_error
    (Parse : string -> string -> option GoTime.Time)
    (dcc : DCC) (rules : europeanVerificationRules) (now : GoTime.Time) (err : error) :
  validateDateOfBirth (DateOfBirth dcc) = None ->
  validateName (Name dcc) = None ->
  (forall vacc, Vaccinations dcc = [vacc] -> Tests dcc = [] -> Recoveries dcc = [] ->
     validateVaccination Parse vacc rules now = Some err ->
     validateDCC Parse dcc rules now = Some (WrapPrefix err "Invalid vaccination statement"))
  /\ (forall test, Vaccinations dcc = [] -> Tests dcc = [test] -> Recoveries dcc = [] ->
        validateTest Parse test rules now = Some err ->
        validateDCC Parse dcc rules now = Some (WrapPrefix err "Invalid test statement"))
  /\ (forall rec, Vaccinations dcc = [] -> Tests dcc = [] -> Recoveries dcc = [rec] ->
        validateRecovery Parse rec rules now = Some err ->
        validateDCC Parse dcc rules now = Some (WrapPrefix err "Invalid recovery statement")).
Proof.
  intros Hdob Hname. unfold validateDCC, validateStatementAmount.
  rewrite Hdob, Hname. repeat split.
  - intros vacc -> -> -> Herr. simpl. now rewrite Herr.
  - intros test -> -> -> Herr. simpl. now rewrite Herr.
  - intros rec -> -> -> Herr. simpl. now rewrite Herr.
Qed.

(** The sample certificate checked fifty hours after the collection. *)
Lemma validateDCC_statement_error_witness :
  validateDCC Civil.Parse sampleDCC sampleRules (GoTime.Unix (1622541600 + 50 * 3600)%Z 0)
  = Some (WrapPrefix
            (Errorf "Time of collection is more than %s ago"
               [ArgDurationString (48 * GoTime.Hour)%Z])
            "Invalid test statement").
Proof.
  apply (proj1 (proj2 (validateDCC_statement_error Civil.Parse sampleDCC sampleRules
                         (GoTime.Unix (1622541600 + 50 * 3600)%Z 0) _ eq_refl eq_refl))
           sampleTest); reflexivity.
Defined.
